(** * W25Q128FV flash driver: a shallow embedding of [w25q128fv_driver.c]

    The driver talks to a serial NOR flash over SPI.  Every function of the
    C file is translated below as a function in a small writer/reader monad:
    a run consumes the outcomes that the SPI transport will report (the
    script) and produces the sequence of observable effects (chip-select
    writes, SPI exchanges, delays, stores through caller pointers).

    Machine integers are [Z] with the wrap-around written out, byte buffers
    are [list Z] indexed with stdpp's lookup and insert. *)

From Stdlib Require Import ZArith Lia Bool.
From stdpp Require Import base list.

Local Open Scope Z_scope.

(** ** Machine integers *)

Definition uint8 (x : Z) : Z := x mod 2 ^ 8.
Definition uint16 (x : Z) : Z := x mod 2 ^ 16.
Definition uint32 (x : Z) : Z := x mod 2 ^ 32.

Definition Z_neqb (x y : Z) : bool := negb (x =? y).
Infix "!=?" := Z_neqb (at level 70, no associativity).

(** ** Constants of the driver (the [#define]s of the C file) *)

Definition W25Q128FV_SECTOR_SIZE_IN_PAGES : Z := 16.
Definition W25Q128FV_PAGE_SIZE_IN_BYTES : Z := 256.
Definition W25Q128FV_TOTAL_PAGES : Z := 65356.
Definition W25Q128FV_TOTAL_SECTORS : Z := 4085.
Definition W25Q128FV_TOTAL_SECTORS_MINUS_ONE : Z := 4084.
Definition W25Q128FV_FLASH_MEMORY_TOTAL_SIZE_IN_BYTES : Z := 16731136.
Definition W25Q128FV_SECTOR_SIZE_IN_BYTES : Z := 4096.
Definition W25Q128FV_MAX_CONSECUTIVE_PROGRAMMABLE_BYTES : Z := 255.
Definition W25Q128FV_ENABLE_RESET_INSTRUCTION : Z := 0x66.
Definition W25Q128FV_RESET_DEVICE_INSTRUCTION : Z := 0x99.
Definition W25Q128FV_READ_JEDEC_ID_INSTRUCTION : Z := 0x9F.
Definition W25Q128FV_READ_DATA_INSTRUCTION : Z := 0x03.
Definition W25Q128FV_FAST_READ_INSTRUCTION : Z := 0x0B.
Definition W25Q128FV_SECTOR_ERASE_INSTRUCTION : Z := 0x20.
Definition W25Q128FV_CHIP_ERASE_INSTRUCTION : Z := 0xC7.
Definition W25Q128FV_PAGE_PROGRAM_INSTRUCTION : Z := 0x02.
Definition W25Q128FV_PAGE_PROGRAM_INSTRUCTION_MAX_SIZE_IN_BYTES : Z := 259.
Definition W25Q128FV_WRITE_ENABLE_INSTRUCTION : Z := 0x06.
Definition W25Q128FV_WRITE_DISABLE_INSTRUCTION : Z := 0x04.

(** ** Status codes *)

(** The outcomes of the SPI transport ([HAL_StatusTypeDef] of the vendor
    HAL, spec section 6: Success, ProtocolError, Busy, Timeout) and their
    numeric codes. *)
Inductive HAL_StatusTypeDef : Type :=
  | HAL_OK
  | HAL_ERROR
  | HAL_BUSY
  | HAL_TIMEOUT.

Definition HAL_code (h : HAL_StatusTypeDef) : Z :=
  match h with
  | HAL_OK => 0
  | HAL_ERROR => 1
  | HAL_BUSY => 2
  | HAL_TIMEOUT => 3
  end.

(** Modelled from the spec: the header [w25q128fv_driver.h], which declares
    the enumeration [W25Q128FV_Status], is not among the sources.  The spec
    (section 3, OperationResult) names the three results used by the C file:
    Ok, NoResponse and Error.  [HAL_ret_handler] hands a successful HAL
    status back unchanged and documents that value as the driver's Ok, so Ok
    shares the code of [HAL_OK]; the other two codes are distinct from it
    and from each other. *)
Definition W25Q128FV_EC_OK : Z := 0.

(** Modelled from the spec: the NoResponse result of the absent header
    [w25q128fv_driver.h] (bus busy or timeout). *)
Definition W25Q128FV_EC_NR : Z := 2.

(** Modelled from the spec: the Error result of the absent header
    [w25q128fv_driver.h] (validation failure or transport fault). *)
Definition W25Q128FV_EC_ERR : Z := 4.

(** [HAL_ret_handler]: the [switch] over the HAL status. *)
Definition HAL_ret_handler (HAL_status : Z) : Z :=
  if (HAL_status =? HAL_code HAL_BUSY) || (HAL_status =? HAL_code HAL_TIMEOUT)
  then W25Q128FV_EC_NR
  else if HAL_status =? HAL_code HAL_ERROR
  then W25Q128FV_EC_ERR
  else HAL_status.

(** ** Observable effects and the transport *)

Inductive GPIO_PinState : Type :=
  | GPIO_PIN_RESET
  | GPIO_PIN_SET.

Inductive event : Type :=
  | CS_WritePin (level : GPIO_PinState)   (* HAL_GPIO_WritePin on the CS pin *)
  | SPI_Transmit (data : list Z)          (* HAL_SPI_Transmit of these bytes *)
  | SPI_Receive (count : Z)               (* HAL_SPI_Receive of [count] bytes *)
  | Delay (ms : Z)                        (* HAL_Delay *)
  | Store_id (v : Z).                     (* *w25q128fv_id = v *)

(** What the transport answers to one SPI call: a status and, for a
    receive, the bytes that the device shifted out. *)
Record reply : Type := Reply { status : HAL_StatusTypeDef; rx : list Z }.

Record run (A : Type) : Type :=
  Run { value : A; trace : list event; rest : list reply }.
Arguments Run {A} _ _ _.
Arguments value {A} _.
Arguments trace {A} _.
Arguments rest {A} _.

(** A computation reads the forthcoming replies and yields a value, the
    events it produced and the replies it has not consumed. *)
Definition M (A : Type) : Type := list reply -> run A.

Definition Ret {A : Type} (a : A) : M A := fun s => Run a [] s.

Definition bind {A B : Type} (c : M A) (k : A -> M B) : M B :=
  fun s =>
    let r1 := c s in
    let r2 := k (value r1) (rest r1) in
    Run (value r2) (trace r1 ++ trace r2) (rest r2).

Notation "x <- c ;; k" := (bind c (fun x => k))
  (at level 100, c at next level, right associativity).
Notation "c ;; k" := (bind c (fun _ => k))
  (at level 100, right associativity).

Definition emit (e : event) : M unit := fun s => Run tt [e] s.

(** A script that has run out answers [HAL_OK] with no data. *)
Definition next_reply (s : list reply) : reply * list reply :=
  match s with
  | [] => (Reply HAL_OK [], [])
  | r :: s' => (r, s')
  end.

(** [HAL_SPI_Transmit(p_hspi, pData, Size, timeout)]: the HAL takes [Size]
    as a [uint16_t] and sends the first [Size] bytes of [pData].  The array
    must hold that many bytes: the callers below pass literal arrays of
    exactly [Size] bytes, and the write loop, whose [Size] is computed,
    checks its instruction array before the call. *)
Definition HAL_SPI_Transmit (pData : list Z) (Size : Z) : M Z :=
  fun s =>
    let (r, s') := next_reply s in
    Run (HAL_code (status r))
        [SPI_Transmit (take (Z.to_nat (uint16 Size)) pData)] s'.

(** [HAL_SPI_Receive(p_hspi, pData, Size, timeout)]: the bytes received (at
    most [Size]) overwrite the beginning of the destination buffer. *)
Definition HAL_SPI_Receive (pData : list Z) (Size : Z) : M (Z * list Z) :=
  fun s =>
    let (r, s') := next_reply s in
    let got := take (Z.to_nat (uint16 Size)) (rx r) in
    Run (HAL_code (status r), got ++ drop (length got) pData)
        [SPI_Receive (uint16 Size)] s'.

Definition HAL_Delay (ms : Z) : M unit := emit (Delay ms).

Definition set_cs_pin_low : M unit := emit (CS_WritePin GPIO_PIN_RESET).
Definition set_cs_pin_high : M unit := emit (CS_WritePin GPIO_PIN_SET).

(** ** The operations of the driver *)

Definition send_w25q128fv_write_enable_instruction : M Z :=
  let write_enable_instruction := W25Q128FV_WRITE_ENABLE_INSTRUCTION in
  set_cs_pin_low ;;
  ret <- HAL_SPI_Transmit [write_enable_instruction] 1 ;;
  set_cs_pin_high ;;
  let ret := HAL_ret_handler ret in
  if ret !=? W25Q128FV_EC_OK then Ret ret
  else Ret W25Q128FV_EC_OK.

Definition send_w25q128fv_write_disable_instruction : M Z :=
  let write_disable_instruction := W25Q128FV_WRITE_DISABLE_INSTRUCTION in
  set_cs_pin_low ;;
  ret <- HAL_SPI_Transmit [write_disable_instruction] 1 ;;
  set_cs_pin_high ;;
  let ret := HAL_ret_handler ret in
  if ret !=? W25Q128FV_EC_OK then Ret ret
  else Ret W25Q128FV_EC_OK.

Definition w25q128fv_software_reset : M Z :=
  let reset_instruction :=
    [W25Q128FV_ENABLE_RESET_INSTRUCTION; W25Q128FV_RESET_DEVICE_INSTRUCTION] in
  set_cs_pin_low ;;
  ret <- HAL_SPI_Transmit reset_instruction 2 ;;
  set_cs_pin_high ;;
  let ret := HAL_ret_handler ret in
  if ret !=? W25Q128FV_EC_OK then Ret ret
  else
    HAL_Delay 1 ;;
    Ret W25Q128FV_EC_OK.

(** [array !!! i] for a C array read at a constant index that is within the
    array. *)
Definition byte_at (a : list Z) (i : nat) : Z := default 0 (a !! i).

(** [w25q128fv_read_id(uint32_t *w25q128fv_id)]: the store through the
    pointer is the event [Store_id].  The local response array starts out
    zero-filled here; it is only read after a receive that succeeded. *)
Definition w25q128fv_read_id : M Z :=
  let read_jedec_id_instruction := W25Q128FV_READ_JEDEC_ID_INSTRUCTION in
  let w25q128fv_resp := [0; 0; 0] in
  set_cs_pin_low ;;
  ret <- HAL_SPI_Transmit [read_jedec_id_instruction] 1 ;;
  let ret := HAL_ret_handler ret in
  if ret !=? W25Q128FV_EC_OK then
    set_cs_pin_high ;;
    Ret ret
  else
    got <- HAL_SPI_Receive w25q128fv_resp 3 ;;
    let ret := fst got in
    let w25q128fv_resp := snd got in
    set_cs_pin_high ;;
    let ret := HAL_ret_handler ret in
    if ret !=? W25Q128FV_EC_OK then Ret ret
    else if (byte_at w25q128fv_resp 0 =? 0x00)
            && (byte_at w25q128fv_resp 1 =? 0x00)
            && (byte_at w25q128fv_resp 2 =? 0x00)
    then Ret W25Q128FV_EC_NR
    else
      emit (Store_id (uint32 (Z.lor (Z.lor (Z.shiftl (byte_at w25q128fv_resp 0) 16)
                                           (Z.shiftl (byte_at w25q128fv_resp 1) 8))
                                    (byte_at w25q128fv_resp 2)))) ;;
      Ret W25Q128FV_EC_OK.

(** The value of [*w25q128fv_id] after a call, given its value before. *)
Definition id_after (before : Z) (t : list event) : Z :=
  foldl (fun cell e => match e with Store_id v => v | _ => cell end) before t.

(** [w25q128fv_read_flash_memory]: returns the status and the contents of
    [dst] after the call. *)
Definition w25q128fv_read_flash_memory
    (start_page page_bytes_offset size : Z) (dst : list Z) : M (Z * list Z) :=
  let w25q128fv_flash_memory_addr :=
    uint32 (start_page * W25Q128FV_PAGE_SIZE_IN_BYTES + page_bytes_offset) in
  if uint32 (w25q128fv_flash_memory_addr + size)
       >? W25Q128FV_FLASH_MEMORY_TOTAL_SIZE_IN_BYTES
  then Ret (W25Q128FV_EC_ERR, dst)
  else
    let read_data_instruction :=
      [W25Q128FV_READ_DATA_INSTRUCTION;
       uint8 (Z.shiftr w25q128fv_flash_memory_addr 16);
       uint8 (Z.shiftr w25q128fv_flash_memory_addr 8);
       uint8 w25q128fv_flash_memory_addr] in
    set_cs_pin_low ;;
    ret <- HAL_SPI_Transmit read_data_instruction 4 ;;
    let ret := HAL_ret_handler ret in
    if ret !=? W25Q128FV_EC_OK then
      set_cs_pin_high ;;
      Ret (ret, dst)
    else
      got <- HAL_SPI_Receive dst size ;;
      let ret := fst got in
      let dst := snd got in
      set_cs_pin_high ;;
      let ret := HAL_ret_handler ret in
      if ret !=? W25Q128FV_EC_OK then Ret (ret, dst)
      else Ret (W25Q128FV_EC_OK, dst).

Definition w25q128fv_fast_read_flash_memory
    (start_page page_bytes_offset size : Z) (dst : list Z) : M (Z * list Z) :=
  let w25q128fv_flash_memory_addr :=
    uint32 (start_page * W25Q128FV_PAGE_SIZE_IN_BYTES + page_bytes_offset) in
  if uint32 (w25q128fv_flash_memory_addr + size)
       >? W25Q128FV_FLASH_MEMORY_TOTAL_SIZE_IN_BYTES
  then Ret (W25Q128FV_EC_ERR, dst)
  else
    let fast_read_instruction :=
      [W25Q128FV_FAST_READ_INSTRUCTION;
       uint8 (Z.shiftr w25q128fv_flash_memory_addr 16);
       uint8 (Z.shiftr w25q128fv_flash_memory_addr 8);
       uint8 w25q128fv_flash_memory_addr;
       0x00] in
    set_cs_pin_low ;;
    ret <- HAL_SPI_Transmit fast_read_instruction 5 ;;
    let ret := HAL_ret_handler ret in
    if ret !=? W25Q128FV_EC_OK then
      set_cs_pin_high ;;
      Ret (ret, dst)
    else
      got <- HAL_SPI_Receive dst size ;;
      let ret := fst got in
      let dst := snd got in
      set_cs_pin_high ;;
      let ret := HAL_ret_handler ret in
      if ret !=? W25Q128FV_EC_OK then Ret (ret, dst)
      else Ret (W25Q128FV_EC_OK, dst).

Definition w25q128fv_erase_sector (sector_number : Z) : M Z :=
  if sector_number >? W25Q128FV_TOTAL_SECTORS_MINUS_ONE
  then Ret W25Q128FV_EC_ERR
  else
    ret <- send_w25q128fv_write_enable_instruction ;;
    if ret !=? W25Q128FV_EC_OK then Ret W25Q128FV_EC_ERR
    else
      let w25q128fv_flash_memory_addr :=
        uint32 (sector_number * W25Q128FV_SECTOR_SIZE_IN_BYTES) in
      let sector_erase_instruction :=
        [W25Q128FV_SECTOR_ERASE_INSTRUCTION;
         uint8 (Z.shiftr w25q128fv_flash_memory_addr 16);
         uint8 (Z.shiftr w25q128fv_flash_memory_addr 8);
         uint8 w25q128fv_flash_memory_addr] in
      set_cs_pin_low ;;
      ret <- HAL_SPI_Transmit sector_erase_instruction 4 ;;
      set_cs_pin_high ;;
      let ret := HAL_ret_handler ret in
      if ret !=? W25Q128FV_EC_OK then Ret ret
      else
        HAL_Delay 400 ;;
        ret <- send_w25q128fv_write_disable_instruction ;;
        if ret !=? W25Q128FV_EC_OK then Ret W25Q128FV_EC_ERR
        else Ret W25Q128FV_EC_OK.

Definition w25q128fv_chip_erase : M Z :=
  let chip_erase_instruction := W25Q128FV_CHIP_ERASE_INSTRUCTION in
  ret <- send_w25q128fv_write_enable_instruction ;;
  if ret !=? W25Q128FV_EC_OK then Ret W25Q128FV_EC_ERR
  else
    set_cs_pin_low ;;
    ret <- HAL_SPI_Transmit [chip_erase_instruction] 1 ;;
    set_cs_pin_high ;;
    let ret := HAL_ret_handler ret in
    if ret !=? W25Q128FV_EC_OK then Ret ret
    else
      HAL_Delay 200000 ;;
      ret <- send_w25q128fv_write_disable_instruction ;;
      if ret !=? W25Q128FV_EC_OK then Ret W25Q128FV_EC_ERR
      else Ret W25Q128FV_EC_OK.

(** ** Writing: [w25q128fv_write_flash_memory] *)

(** Outcome of code that indexes arrays and loops: a value, an access
    outside an array (undefined behaviour in C; the run stops there), or a
    loop that did not finish within the iterations granted to it by the
    embedding. *)
Inductive exec (A : Type) : Type :=
  | Done (a : A)
  | OutOfBounds
  | OutOfFuel.
Arguments Done {A} _.
Arguments OutOfBounds {A}.
Arguments OutOfFuel {A}.

(** [a[i]] read and [a[i] = v] written, with the bounds of [a] checked. *)
Definition load (a : list Z) (i : Z) : exec Z :=
  if (0 <=? i) && (i <? Z.of_nat (length a))
  then Done (byte_at a (Z.to_nat i))
  else OutOfBounds.

Definition store (a : list Z) (i : Z) (v : Z) : exec (list Z) :=
  if (0 <=? i) && (i <? Z.of_nat (length a))
  then Done (<[Z.to_nat i := v]> a)
  else OutOfBounds.

(** The local variables of the function that its loops update. *)
Record wstate : Type := WState {
  page_program_instruction : list Z;
  currently_written_bytes : Z;
  current_page_program_instruction_size : Z;
  current_w25q128fv_flash_memory_address : Z;
  remaining_writable_bytes_in_current_page : Z;
  current_page_to_write : Z;
  next_page_to_write : Z
}.

Section WriteLoops.

Variable size : Z.
Variable src : list Z.
Variable w25q128fv_flash_memory_addr_end_plus_one : Z.

(** The inner [for (uint8_t current_byte = 0; current_page_to_write <
    next_page_to_write; current_byte++)], which copies source bytes into
    the data field, [page_program_instruction_data] being
    [&page_program_instruction[4]]. *)
Fixpoint page_fill_loop (fuel : nat) (current_byte : Z) (st : wstate)
    : exec wstate :=
  if current_page_to_write st <? next_page_to_write st then
    match fuel with
    | O => OutOfFuel
    | S fuel' =>
      match load src (currently_written_bytes st) with
      | Done b =>
        match store (page_program_instruction st) (4 + current_byte) b with
        | Done buf =>
          let written := uint32 (currently_written_bytes st + 1) in
          let isize := uint16 (current_page_program_instruction_size st + 1) in
          let addr := uint32 (current_w25q128fv_flash_memory_address st + 1) in
          let remaining :=
            uint16 (remaining_writable_bytes_in_current_page st - 1) in
          if remaining =? 0 then
            page_fill_loop fuel' (uint8 (current_byte + 1))
              (WState buf written isize addr
                      W25Q128FV_PAGE_SIZE_IN_BYTES
                      (uint32 (current_page_to_write st + 1))
                      (next_page_to_write st))
          else if written =? size then
            Done (WState buf written isize addr remaining
                         (current_page_to_write st) (next_page_to_write st))
          else
            page_fill_loop fuel' (uint8 (current_byte + 1))
              (WState buf written isize addr remaining
                      (current_page_to_write st) (next_page_to_write st))
        | OutOfBounds => OutOfBounds
        | OutOfFuel => OutOfFuel
        end
      | OutOfBounds => OutOfBounds
      | OutOfFuel => OutOfFuel
      end
    end
  else Done st.

(** "Populate the Data field in the Page Program Instruction": the
    [if]/[else] between chip-select low and the transmission. *)
Definition populate_data_field (st : wstate) : exec wstate :=
  let st :=
    WState (page_program_instruction st) (currently_written_bytes st) 4
           (current_w25q128fv_flash_memory_address st)
           (remaining_writable_bytes_in_current_page st)
           (current_page_to_write st) (next_page_to_write st) in
  if remaining_writable_bytes_in_current_page st
       =? W25Q128FV_PAGE_SIZE_IN_BYTES then
    match load src (currently_written_bytes st) with
    | Done b =>
      match store (page_program_instruction st) (4 + 0) b with
      | Done buf =>
        Done (WState buf
                (uint32 (currently_written_bytes st + 1))
                (uint16 (current_page_program_instruction_size st + 1))
                (uint32 (current_w25q128fv_flash_memory_address st + 1))
                (uint16 (remaining_writable_bytes_in_current_page st - 1))
                (current_page_to_write st) (next_page_to_write st))
      | OutOfBounds => OutOfBounds
      | OutOfFuel => OutOfFuel
      end
    | OutOfBounds => OutOfBounds
    | OutOfFuel => OutOfFuel
    end
  else
    match page_fill_loop
            (Z.to_nat (remaining_writable_bytes_in_current_page st)) 0 st with
    | Done st =>
      if current_page_to_write st =? next_page_to_write st then
        Done (WState (page_program_instruction st)
                (currently_written_bytes st)
                (current_page_program_instruction_size st)
                (current_w25q128fv_flash_memory_address st)
                (remaining_writable_bytes_in_current_page st)
                (current_page_to_write st)
                (uint32 (next_page_to_write st + 1)))
      else Done st
    | OutOfBounds => OutOfBounds
    | OutOfFuel => OutOfFuel
    end.

(** The outer [for] over [current_w25q128fv_flash_memory_address]. *)
Fixpoint write_loop (fuel : nat) (st : wstate) : M (exec Z) :=
  if current_w25q128fv_flash_memory_address st
       <? w25q128fv_flash_memory_addr_end_plus_one then
    match fuel with
    | O => Ret OutOfFuel
    | S fuel' =>
      ret <- send_w25q128fv_write_enable_instruction ;;
      if ret !=? W25Q128FV_EC_OK then Ret (Done W25Q128FV_EC_ERR)
      else
        let addr := current_w25q128fv_flash_memory_address st in
        let buf :=
          <[3%nat := uint8 addr]>
            (<[2%nat := uint8 (Z.shiftr addr 8)]>
               (<[1%nat := uint8 (Z.shiftr addr 16)]>
                  (page_program_instruction st))) in
        set_cs_pin_low ;;
        match populate_data_field
                (WState buf (currently_written_bytes st)
                        (current_page_program_instruction_size st)
                        addr
                        (remaining_writable_bytes_in_current_page st)
                        (current_page_to_write st) (next_page_to_write st))
        with
        | Done st' =>
          (* the HAL reads [current_page_program_instruction_size] bytes
             of the instruction array: beyond its end it is an access
             outside the array *)
          if Z.of_nat (length (page_program_instruction st'))
               <? uint16 (current_page_program_instruction_size st')
          then Ret OutOfBounds
          else
            ret <- HAL_SPI_Transmit (page_program_instruction st')
                     (current_page_program_instruction_size st') ;;
            set_cs_pin_high ;;
            let ret := HAL_ret_handler ret in
            if ret !=? W25Q128FV_EC_OK then Ret (Done ret)
            else
              HAL_Delay 3 ;;
              ret <- send_w25q128fv_write_disable_instruction ;;
              if ret !=? W25Q128FV_EC_OK then Ret (Done W25Q128FV_EC_ERR)
              else write_loop fuel' st'
        | OutOfBounds => Ret OutOfBounds
        | OutOfFuel => Ret OutOfFuel
        end
    end
  else Ret (Done W25Q128FV_EC_OK).

End WriteLoops.

(** [src] is the memory behind the caller's pointer.  The local instruction
    array starts out zero-filled here; only bytes written before are ever
    transmitted.  The outer loop is granted one iteration per byte to
    write, the inner one an iteration per byte left in the page. *)
Definition w25q128fv_write_flash_memory
    (start_page page_bytes_offset size : Z) (src : list Z) : M (exec Z) :=
  let w25q128fv_flash_memory_addr_start :=
    uint32 (start_page * W25Q128FV_PAGE_SIZE_IN_BYTES + page_bytes_offset) in
  let w25q128fv_flash_memory_addr_end_plus_one :=
    uint32 (w25q128fv_flash_memory_addr_start + size) in
  if w25q128fv_flash_memory_addr_end_plus_one
       >? W25Q128FV_FLASH_MEMORY_TOTAL_SIZE_IN_BYTES
  then Ret (Done W25Q128FV_EC_ERR)
  else
    let w25q128fv_flash_memory_page_start :=
      uint32 (start_page + page_bytes_offset / W25Q128FV_PAGE_SIZE_IN_BYTES) in
    let page_program_instruction :=
      <[0%nat := W25Q128FV_PAGE_PROGRAM_INSTRUCTION]>
        (replicate
           (Z.to_nat W25Q128FV_PAGE_PROGRAM_INSTRUCTION_MAX_SIZE_IN_BYTES) 0) in
    let currently_written_bytes := 0 in
    let current_page_program_instruction_size := 4 in
    let current_page_to_write := w25q128fv_flash_memory_page_start in
    let next_page_to_write := uint32 (w25q128fv_flash_memory_page_start + 1) in
    let remaining_writable_bytes_in_current_page :=
      uint16 (uint32 (W25Q128FV_PAGE_SIZE_IN_BYTES
                      - uint32 (w25q128fv_flash_memory_addr_start
                                - uint32 (w25q128fv_flash_memory_page_start
                                          * W25Q128FV_PAGE_SIZE_IN_BYTES)))) in
    let remaining_writable_bytes_in_current_page :=
      if remaining_writable_bytes_in_current_page =? 0
      then W25Q128FV_PAGE_SIZE_IN_BYTES
      else remaining_writable_bytes_in_current_page in
    write_loop size src w25q128fv_flash_memory_addr_end_plus_one
      (Z.to_nat size)
      (WState page_program_instruction currently_written_bytes
              current_page_program_instruction_size
              w25q128fv_flash_memory_addr_start
              remaining_writable_bytes_in_current_page
              current_page_to_write next_page_to_write).

(** ** Reading traces *)

(** The page-program sub-instructions of a trace: start address (decoded
    from the three big-endian address bytes) and payload. *)
Definition page_program_of (e : event) : option (Z * list Z) :=
  match e with
  | SPI_Transmit (op :: a2 :: a1 :: a0 :: payload) =>
    if op =? W25Q128FV_PAGE_PROGRAM_INSTRUCTION
    then Some (a2 * 65536 + a1 * 256 + a0, payload)
    else None
  | _ => None
  end.

Definition page_programs (t : list event) : list (Z * list Z) :=
  omap page_program_of t.

Definition chunk_sizes (t : list event) : list Z :=
  map (fun p => Z.of_nat (length (snd p))) (page_programs t).

Definition all_ok (s : list reply) : Prop :=
  Forall (fun r => status r = HAL_OK) s.

(** Chip-select discipline of a trace, starting from the line being
    [asserted] or not: the line is pulled low only when it is high, released
    only when it is low, every SPI exchange happens while it is low, and the
    trace ends with the line high. *)
Fixpoint cs_bracketed (asserted : bool) (t : list event) : bool :=
  match t with
  | [] => negb asserted
  | CS_WritePin GPIO_PIN_RESET :: t' => negb asserted && cs_bracketed true t'
  | CS_WritePin GPIO_PIN_SET :: t' => asserted && cs_bracketed false t'
  | SPI_Transmit _ :: t' => asserted && cs_bracketed asserted t'
  | SPI_Receive _ :: t' => asserted && cs_bracketed asserted t'
  | Delay _ :: t' => cs_bracketed asserted t'
  | Store_id _ :: t' => cs_bracketed asserted t'
  end.

(** The values stored through [w25q128fv_id], and the SPI calls made. *)
Definition stores (t : list event) : list Z :=
  omap (fun e => match e with Store_id v => Some v | _ => None end) t.

Definition is_spi_call (e : event) : bool :=
  match e with
  | SPI_Transmit _ | SPI_Receive _ => true
  | _ => false
  end.

Definition spi_calls (t : list event) : nat :=
  length (List.filter is_spi_call t).

(** ** The splitting rule that the write loops implement *)

(** Length of the sub-instruction that starts at [addr] with [bytes_left]
    bytes still to write: a page that is still whole gets a single byte
    first, otherwise the sub-instruction runs to the end of the page or of
    the data, whichever comes first. *)
Definition chunk_len (addr bytes_left : Z) : Z :=
  let remaining_in_page :=
    W25Q128FV_PAGE_SIZE_IN_BYTES - addr mod W25Q128FV_PAGE_SIZE_IN_BYTES in
  if remaining_in_page =? W25Q128FV_PAGE_SIZE_IN_BYTES then 1
  else Z.min remaining_in_page bytes_left.

(** The rule of the spec (section 4.5, step 2a), with the payload ceiling
    [W25Q128FV_MAX_CONSECUTIVE_PROGRAMMABLE_BYTES]. *)
Definition spec_chunk_len (addr bytes_left : Z) : Z :=
  let remaining_in_page :=
    W25Q128FV_PAGE_SIZE_IN_BYTES - addr mod W25Q128FV_PAGE_SIZE_IN_BYTES in
  Z.min (Z.min remaining_in_page bytes_left)
        W25Q128FV_MAX_CONSECUTIVE_PROGRAMMABLE_BYTES.

Fixpoint split_chunks (fuel : nat) (addr : Z) (data : list Z)
    : list (Z * list Z) :=
  match fuel with
  | O => []
  | S fuel' =>
    match data with
    | [] => []
    | _ :: _ =>
      let n := Z.to_nat (chunk_len addr (Z.of_nat (length data))) in
      (addr, take n data)
        :: split_chunks fuel' (addr + Z.of_nat n) (drop n data)
    end
  end.

Definition page_frame (addr : Z) (payload : list Z) : list Z :=
  W25Q128FV_PAGE_PROGRAM_INSTRUCTION
    :: uint8 (Z.shiftr addr 16) :: uint8 (Z.shiftr addr 8) :: uint8 addr
    :: payload.

Definition transmit_frame (frame : list Z) : M Z :=
  fun s =>
    let (r, s') := next_reply s in
    Run (HAL_code (status r)) [SPI_Transmit frame] s'.

(** Write-enable, page program, wait, write-disable for each chunk in turn,
    with the early returns of the write loop. *)
Fixpoint program_chunks (chunks : list (Z * list Z)) : M Z :=
  match chunks with
  | [] => Ret W25Q128FV_EC_OK
  | chunk :: chunks' =>
    ret <- send_w25q128fv_write_enable_instruction ;;
    if ret !=? W25Q128FV_EC_OK then Ret W25Q128FV_EC_ERR
    else
      set_cs_pin_low ;;
      ret <- transmit_frame (page_frame (fst chunk) (snd chunk)) ;;
      set_cs_pin_high ;;
      let ret := HAL_ret_handler ret in
      if ret !=? W25Q128FV_EC_OK then Ret ret
      else
        HAL_Delay 3 ;;
        ret <- send_w25q128fv_write_disable_instruction ;;
        if ret !=? W25Q128FV_EC_OK then Ret W25Q128FV_EC_ERR
        else program_chunks chunks'
  end.

Definition finished (c : M Z) : M (exec Z) :=
  fun s => let r := c s in Run (Done (value r)) (trace r) (rest r).

(** ** Requests *)

Definition valid_request
    (start_page page_bytes_offset size : Z) (src : list Z) : Prop :=
  0 <= start_page /\ 0 <= page_bytes_offset < 256 /\
  0 <= size <= Z.of_nat (length src) /\
  start_page * W25Q128FV_PAGE_SIZE_IN_BYTES + page_bytes_offset + size
    <= W25Q128FV_FLASH_MEMORY_TOTAL_SIZE_IN_BYTES.

(** A call as C types allow it: any 32-bit page and size, any 8-bit offset,
    and [size] readable bytes behind [src]. *)
Definition typed_request
    (start_page page_bytes_offset size : Z) (src : list Z) : Prop :=
  0 <= start_page < 2 ^ 32 /\ 0 <= page_bytes_offset < 2 ^ 8 /\
  0 <= size < 2 ^ 32 /\ size <= Z.of_nat (length src).

(** ** Replies and events of one programmed chunk *)

(** The driver's result for the next SPI call of a script. *)
Definition reply_code (s : list reply) : Z :=
  HAL_ret_handler (HAL_code (status (fst (next_reply s)))).

Definition after_reply (s : list reply) : list reply := snd (next_reply s).

(** One frame sent inside its own chip-select bracket. *)
Definition exchange (frame : list Z) : list event :=
  [CS_WritePin GPIO_PIN_RESET; SPI_Transmit frame; CS_WritePin GPIO_PIN_SET].

(** The events of one chunk programmed without a failure. *)
Definition chunk_events (chunk : Z * list Z) : list event :=
  exchange [W25Q128FV_WRITE_ENABLE_INSTRUCTION]
    ++ exchange (page_frame (fst chunk) (snd chunk))
    ++ Delay 3 :: exchange [W25Q128FV_WRITE_DISABLE_INSTRUCTION].

(** ** Sequences of sub-instructions *)

(** First address after the range of a sub-instruction. *)
Definition sub_end (p : Z * list Z) : Z := fst p + Z.of_nat (length (snd p)).

(** The address [x] lies in the range of the sub-instruction. *)
Definition covers (p : Z * list Z) (x : Z) : Prop := fst p <= x < sub_end p.

(** The ranges follow one another from [a] to [e] without a gap, and none is
    empty. *)
Fixpoint contiguous (a : Z) (subs : list (Z * list Z)) (e : Z) : Prop :=
  match subs with
  | [] => a = e
  | p :: subs' => fst p = a /\ snd p <> [] /\ contiguous (sub_end p) subs' e
  end.

(** The chunks of a write request whose address arithmetic does not wrap. *)
Definition chunks_of (start_page page_bytes_offset size : Z) (src : list Z)
    : list (Z * list Z) :=
  split_chunks (Z.to_nat size) (start_page * 256 + page_bytes_offset)
    (take (Z.to_nat size) src).

(** A transmitted frame fits the instruction buffer it is sent from. *)
Definition frame_fits (e : event) : Prop :=
  match e with
  | SPI_Transmit data =>
    Z.of_nat (length data) <= W25Q128FV_PAGE_PROGRAM_INSTRUCTION_MAX_SIZE_IN_BYTES
  | _ => True
  end.

(** Start address and length of each sub-instruction of a trace. *)
Definition sub_ranges (t : list event) : list (Z * Z) :=
  map (fun p => (fst p, Z.of_nat (length (snd p)))) (page_programs t).

(** The ranges that the splitting rule yields depend on the amount of data
    only. *)
Fixpoint chunk_plan (fuel : nat) (addr : Z) (bytes_left : nat)
    : list (Z * Z) :=
  match fuel with
  | O => []
  | S fuel' =>
    match bytes_left with
    | O => []
    | S _ =>
      let n := Z.to_nat (chunk_len addr (Z.of_nat bytes_left)) in
      (addr, Z.of_nat n)
        :: chunk_plan fuel' (addr + Z.of_nat n) (bytes_left - n)
    end
  end.

(** ** Further readings of traces *)

(** The three results of the driver. *)
Definition is_status (v : Z) : Prop :=
  v = W25Q128FV_EC_OK \/ v = W25Q128FV_EC_NR \/ v = W25Q128FV_EC_ERR.

Definition is_byte (b : Z) : Prop := 0 <= b < 256.

(** The frames handed to [HAL_SPI_Transmit], in order. *)
Definition transmitted (t : list event) : list (list Z) :=
  omap (fun e => match e with SPI_Transmit data => Some data | _ => None end) t.

(** The number of bytes asked from [HAL_SPI_Receive], call by call. *)
Definition received (t : list event) : list Z :=
  omap (fun e => match e with SPI_Receive count => Some count | _ => None end) t.

(** The delays waited, in order. *)
Definition delays (t : list event) : list Z :=
  omap (fun e => match e with Delay ms => Some ms | _ => None end) t.

(** The 24-bit big-endian address that follows the opcode of a frame. *)
Definition address_of_frame (frame : list Z) : option Z :=
  match frame with
  | _ :: a2 :: a1 :: a0 :: _ => Some (a2 * 65536 + a1 * 256 + a0)
  | _ => None
  end.

Definition is_transmit (e : event) : bool :=
  match e with
  | SPI_Transmit _ => true
  | _ => false
  end.

(** A trace with its transmitted frames left out. *)
Definition without_transmits (t : list event) : list event :=
  List.filter (fun e => negb (is_transmit e)) t.

(** The bytes handed over for programming, each with the address it is
    meant for: the payload of a page program fills consecutive addresses
    from the address of its frame. *)
Definition programmed_bytes (t : list event) : list (Z * Z) :=
  concat (map (fun p => zip (seqZ (fst p) (Z.of_nat (length (snd p)))) (snd p))
              (page_programs t)).


(** The check that the three range-checked operations make, on the 32-bit
    values they compute. *)
Definition range_accepted (start_page page_bytes_offset size : Z) : Prop :=
  uint32 (uint32 (start_page * W25Q128FV_PAGE_SIZE_IN_BYTES + page_bytes_offset)
          + size)
  <= W25Q128FV_FLASH_MEMORY_TOTAL_SIZE_IN_BYTES.

(** * Proofs *)

(** ** Machine arithmetic *)

Lemma uint32_small x : 0 <= x < 2 ^ 32 -> uint32 x = x.
Proof. intros H. unfold uint32. apply Z.mod_small. lia. Qed.

Lemma uint16_small x : 0 <= x < 2 ^ 16 -> uint16 x = x.
Proof. intros H. unfold uint16. apply Z.mod_small. lia. Qed.

Lemma uint8_small x : 0 <= x < 2 ^ 8 -> uint8 x = x.
Proof. intros H. unfold uint8. apply Z.mod_small. lia. Qed.

Lemma address_bytes_decode a :
  0 <= a < 2 ^ 24 ->
  uint8 (Z.shiftr a 16) * 65536 + uint8 (Z.shiftr a 8) * 256 + uint8 a = a.
Proof.
  intros H. unfold uint8. rewrite !Z.shiftr_div_pow2 by lia.
  change (2 ^ 16) with 65536. change (2 ^ 8) with 256.
  change (2 ^ 24) with 16777216 in H.
  Z.div_mod_to_equations. lia.
Qed.

(** ** The monad *)

Lemma bind_cong {A B : Type} (c1 c2 : M A) (k1 k2 : A -> M B) :
  (forall s, c1 s = c2 s) -> (forall x s, k1 x s = k2 x s) ->
  forall s, bind c1 k1 s = bind c2 k2 s.
Proof. intros Hc Hk s. unfold bind. rewrite Hc, Hk. reflexivity. Qed.

Lemma finished_bind {A : Type} (c : M A) (k : A -> M Z) s :
  finished (bind c k) s = bind c (fun x => finished (k x)) s.
Proof. reflexivity. Qed.

Lemma bind_Run {A B : Type} (c : M A) (k : A -> M B) s a t s' :
  c s = Run a t s' ->
  bind c k s = Run (value (k a s')) (t ++ trace (k a s')) (rest (k a s')).
Proof. intros H. unfold bind. rewrite H. reflexivity. Qed.

Ltac monad_unfold :=
  cbv beta iota zeta delta
    [bind Ret emit HAL_SPI_Transmit HAL_SPI_Receive HAL_Delay
     set_cs_pin_low set_cs_pin_high value trace rest].

Ltac step_reply :=
  match goal with
  | |- context [next_reply ?s] =>
    let st := fresh "st" in
    let d := fresh "d" in
    let s' := fresh "s" in
    destruct (next_reply s) as [[st d] s']; destruct st;
    cbn [value trace rest fst snd status rx HAL_code HAL_ret_handler
         Z.eqb Pos.eqb orb negb Z_neqb W25Q128FV_EC_OK W25Q128FV_EC_NR
         W25Q128FV_EC_ERR app]
  end.

Ltac wstate_simpl :=
  cbn [current_page_to_write next_page_to_write
       currently_written_bytes page_program_instruction
       current_page_program_instruction_size
       current_w25q128fv_flash_memory_address
       remaining_writable_bytes_in_current_page].

Ltac bind_step := rewrite finished_bind; apply bind_cong; [reflexivity|].

(** ** The inner loop *)

Lemma load_in_range (a : list Z) i :
  0 <= i < Z.of_nat (length a) -> load a i = Done (byte_at a (Z.to_nat i)).
Proof.
  intros H. unfold load.
  replace (0 <=? i) with true by (symmetry; apply Z.leb_le; lia).
  replace (i <? Z.of_nat (length a)) with true by (symmetry; apply Z.ltb_lt; lia).
  reflexivity.
Qed.

Lemma store_in_range (a : list Z) i v :
  0 <= i < Z.of_nat (length a) -> store a i v = Done (<[Z.to_nat i := v]> a).
Proof.
  intros H. unfold store.
  replace (0 <=? i) with true by (symmetry; apply Z.leb_le; lia).
  replace (i <? Z.of_nat (length a)) with true by (symmetry; apply Z.ltb_lt; lia).
  reflexivity.
Qed.

Lemma take_succ_insert (a : list Z) (i : nat) v :
  (i < length a)%nat -> take (S i) (<[i := v]> a) = take i a ++ [v].
Proof.
  intros H. rewrite (take_S_r _ _ v).
  - rewrite take_insert_ge by lia. reflexivity.
  - apply list_lookup_insert_eq. exact H.
Qed.

Lemma take_succ_drop (l : list Z) (w n : nat) :
  (w + n < length l)%nat ->
  take (S n) (drop w l) = take n (drop w l) ++ [byte_at l (w + n)].
Proof.
  intros H. apply take_S_r. rewrite lookup_drop. unfold byte_at.
  destruct (l !! (w + n)%nat) eqn:E; [reflexivity|].
  apply lookup_ge_None in E. lia.
Qed.

Lemma split_chunks_step (fuel : nat) (addr : Z) (data : list Z) :
  (1 <= length data)%nat ->
  split_chunks (S fuel) addr data
  = let n := Z.to_nat (chunk_len addr (Z.of_nat (length data))) in
    (addr, take n data) :: split_chunks fuel (addr + Z.of_nat n) (drop n data).
Proof. intros H. destruct data; [simpl in H; lia|reflexivity]. Qed.

Lemma chunk_len_bounds a left :
  0 <= a -> 1 <= left ->
  1 <= chunk_len a left <= left /\ chunk_len a left <= 255
  /\ chunk_len a left <= 256 - a mod 256.
Proof.
  intros Ha Hleft. unfold chunk_len, W25Q128FV_PAGE_SIZE_IN_BYTES.
  pose proof (Z.mod_pos_bound a 256 ltac:(lia)).
  destruct (Z.eqb_spec (256 - a mod 256) 256); lia.
Qed.

Section SplitterProofs.

Variable size : Z.
Variable src : list Z.
Hypothesis size_readable : size <= Z.of_nat (length src).
Hypothesis size_32 : size < 2 ^ 32.

(** Started inside a page, the inner loop copies [min remaining (size -
    written)] bytes behind those already in the data field, and moves to
    the next page exactly when it has filled the current one. *)
Lemma page_fill_loop_spec (fuel : nat) :
  forall cb buf w isz a rem cp,
    0 <= cb -> 1 <= rem -> cb + rem <= 255 ->
    0 <= w < size -> 0 <= isz -> isz + rem < 2 ^ 16 ->
    0 <= a -> a + rem < 2 ^ 32 -> 0 <= cp -> cp + 1 < 2 ^ 32 ->
    length buf = 259%nat -> (Z.to_nat rem <= fuel)%nat ->
    let n := Z.min rem (size - w) in
    exists buf',
      page_fill_loop size src fuel cb (WState buf w isz a rem cp (cp + 1))
      = Done (WState buf' (w + n) (isz + n) (a + n)
                     (if n =? rem then 256 else rem - n)
                     (if n =? rem then cp + 1 else cp) (cp + 1))
      /\ length buf' = 259%nat
      /\ take (Z.to_nat (4 + cb + n)) buf'
         = take (Z.to_nat (4 + cb)) buf
             ++ take (Z.to_nat n) (drop (Z.to_nat w) src).
Proof.
  induction fuel as [|fuel IH]; intros cb buf w isz a rem cp
    Hcb Hrem Hroom Hw Hisz Hisz' Ha Ha' Hcp Hcp' Hlen Hfuel n; [lia|].
  cbn [page_fill_loop current_page_to_write next_page_to_write
       currently_written_bytes page_program_instruction
       current_page_program_instruction_size
       current_w25q128fv_flash_memory_address
       remaining_writable_bytes_in_current_page].
  replace (cp <? cp + 1) with true by (symmetry; apply Z.ltb_lt; lia).
  rewrite load_in_range by lia.
  rewrite store_in_range by lia.
  rewrite (uint32_small (w + 1)) by lia.
  rewrite (uint16_small (isz + 1)) by lia.
  rewrite (uint32_small (a + 1)) by lia.
  rewrite (uint16_small (rem - 1)) by lia.
  set (b := byte_at src (Z.to_nat w)).
  set (buf1 := <[Z.to_nat (4 + cb) := b]> buf).
  assert (Hlen1 : length buf1 = 259%nat)
    by (unfold buf1; rewrite length_insert; exact Hlen).
  assert (Htake1 : take (Z.to_nat (4 + cb + 1)) buf1
                   = take (Z.to_nat (4 + cb)) buf ++ [b]).
  { replace (Z.to_nat (4 + cb + 1)) with (S (Z.to_nat (4 + cb))) by lia.
    unfold buf1. apply take_succ_insert. lia. }
  assert (Hsrc1 : take 1 (drop (Z.to_nat w) src) = [b]).
  { pose proof (take_succ_drop src (Z.to_nat w) 0) as E.
    rewrite Nat.add_0_r in E. rewrite E by lia. reflexivity. }
  destruct (Z.eqb_spec (rem - 1) 0) as [E1|E1].
  - (* the page is full *)
    assert (Hn : n = 1) by lia.
    exists buf1.
    replace (page_fill_loop size src fuel (uint8 (cb + 1))
               (WState buf1 (w + 1) (isz + 1) (a + 1)
                       W25Q128FV_PAGE_SIZE_IN_BYTES (uint32 (cp + 1)) (cp + 1)))
      with (Done (WState buf1 (w + 1) (isz + 1) (a + 1)
                       W25Q128FV_PAGE_SIZE_IN_BYTES (uint32 (cp + 1)) (cp + 1))).
    2:{ destruct fuel; cbn [page_fill_loop current_page_to_write next_page_to_write];
        rewrite uint32_small by lia;
        rewrite Z.ltb_irrefl; reflexivity. }
    rewrite uint32_small by lia. rewrite Hn.
    replace (1 =? rem) with true by (symmetry; apply Z.eqb_eq; lia).
    repeat split; [exact Hlen1|].
    change (Z.to_nat 1) with 1%nat. rewrite Htake1, Hsrc1. reflexivity.
  - destruct (Z.eqb_spec (w + 1) size) as [E2|E2].
    + (* all the data has been copied *)
      assert (Hn : n = 1) by lia.
      exists buf1. rewrite Hn.
      replace (1 =? rem) with false by (symmetry; apply Z.eqb_neq; lia).
      repeat split; [exact Hlen1|].
    change (Z.to_nat 1) with 1%nat. rewrite Htake1, Hsrc1. reflexivity.
    + rewrite (uint8_small (cb + 1)) by lia.
      destruct (IH (cb + 1) buf1 (w + 1) (isz + 1) (a + 1) (rem - 1) cp)
        as (buf' & Hrun & Hlen' & Htake'); try lia.
      exists buf'. rewrite Hrun.
      assert (Hn : Z.min (rem - 1) (size - (w + 1)) = n - 1) by lia.
      rewrite Hn in *.
      replace (n - 1 =? rem - 1) with (n =? rem)
        by (destruct (Z.eqb_spec n rem), (Z.eqb_spec (n - 1) (rem - 1)); lia || reflexivity).
      replace (w + 1 + (n - 1)) with (w + n) by lia.
      replace (isz + 1 + (n - 1)) with (isz + n) by lia.
      replace (a + 1 + (n - 1)) with (a + n) by lia.
      replace (rem - 1 - (n - 1)) with (rem - n) by lia.
      repeat split; [exact Hlen'|].
      replace (4 + (cb + 1) + (n - 1)) with (4 + cb + n) in Htake' by lia.
      rewrite Htake'.
      replace (4 + (cb + 1)) with (4 + cb + 1) by lia.
      rewrite Htake1, <- app_assoc. f_equal.
      replace (Z.to_nat n) with (1 + Z.to_nat (n - 1))%nat by lia.
      replace (Z.to_nat (w + 1)) with (Z.to_nat w + 1)%nat by lia.
      rewrite <- Hsrc1, <- drop_drop.
      apply take_take_drop.
Qed.

(** One pass through the data-field population: it takes [chunk_len]
    bytes from the source, and leaves the page bookkeeping in step with
    the address. *)
Lemma populate_data_field_spec buf w isz0 a cp :
  0 <= w < size -> 0 <= a -> a + 256 < 2 ^ 32 ->
  0 <= cp -> cp + 2 < 2 ^ 32 -> length buf = 259%nat ->
  let n := chunk_len a (size - w) in
  exists buf',
    populate_data_field size src
      (WState buf w isz0 a (256 - a mod 256) cp (cp + 1))
    = Done (WState buf' (w + n) (4 + n) (a + n) (256 - (a + n) mod 256)
                   (cp + ((a + n) / 256 - a / 256))
                   (cp + ((a + n) / 256 - a / 256) + 1))
    /\ length buf' = 259%nat
    /\ take (Z.to_nat (4 + n)) buf'
       = take 4 buf ++ take (Z.to_nat n) (drop (Z.to_nat w) src).
Proof.
  intros Hw Ha Hend Hcp Hcp' Hlen n.
  pose proof (Z.mod_pos_bound a 256 ltac:(lia)) as Hmod.
  unfold populate_data_field.
  cbn [current_page_to_write next_page_to_write
       currently_written_bytes page_program_instruction
       current_page_program_instruction_size
       current_w25q128fv_flash_memory_address
       remaining_writable_bytes_in_current_page].
  unfold n, chunk_len, W25Q128FV_PAGE_SIZE_IN_BYTES.
  destruct (Z.eqb_spec (256 - a mod 256) 256) as [E|E].
  - (* a whole page remains: one byte *)
    rewrite load_in_range by lia.
    rewrite store_in_range by lia.
    rewrite (uint32_small (w + 1)) by lia.
    rewrite (uint16_small (4 + 1)) by lia.
    rewrite (uint32_small (a + 1)) by lia.
    rewrite E. rewrite (uint16_small (256 - 1)) by lia.
    assert (E1 : (a + 1) mod 256 = 1) by (Z.div_mod_to_equations; lia).
    assert (E2 : (a + 1) / 256 - a / 256 = 0) by (Z.div_mod_to_equations; lia).
    rewrite E1, E2, !Z.add_0_r.
    eexists. split; [reflexivity|]. split.
    + rewrite length_insert. exact Hlen.
    + change (Z.to_nat (4 + 1)) with (S (Z.to_nat 4)).
      rewrite take_succ_insert by (simpl; lia).
      f_equal. change (Z.to_nat 1) with 1%nat.
      pose proof (take_succ_drop src (Z.to_nat w) 0) as T.
      rewrite Nat.add_0_r in T. rewrite T by lia. reflexivity.
  - (* the page is already begun: up to its end or the end of the data *)
    set (rem := 256 - a mod 256) in *.
    destruct (page_fill_loop_spec (Z.to_nat rem) 0 buf w 4 a rem cp)
      as (buf' & Hrun & Hlen' & Htake'); try lia.
    rewrite Hrun.
    cbn [current_page_to_write next_page_to_write
         currently_written_bytes page_program_instruction
         current_page_program_instruction_size
         current_w25q128fv_flash_memory_address
         remaining_writable_bytes_in_current_page].
    set (m := Z.min rem (size - w)) in *.
    assert (Hm : 1 <= m <= rem) by lia.
    exists buf'. split; [|split; [exact Hlen'|exact Htake']].
    destruct (Z.eqb_spec m rem) as [F|F].
    + rewrite Z.eqb_refl. rewrite (uint32_small (cp + 1 + 1)) by lia.
      assert (E1 : (a + m) mod 256 = 0)
        by (subst rem; Z.div_mod_to_equations; lia).
      assert (E2 : (a + m) / 256 - a / 256 = 1)
        by (subst rem; Z.div_mod_to_equations; lia).
      rewrite E1, E2. reflexivity.
    + replace (cp =? cp + 1) with false by (symmetry; apply Z.eqb_neq; lia).
      assert (E1 : rem - m = 256 - (a + m) mod 256)
        by (subst rem; Z.div_mod_to_equations; lia).
      assert (E2 : (a + m) / 256 - a / 256 = 0)
        by (subst rem; Z.div_mod_to_equations; lia).
      rewrite E1, E2, !Z.add_0_r. reflexivity.
Qed.

(** ** The outer loop *)

Variable addr_end : Z.
Variable page_bias : Z.
Hypothesis addr_end_in_device :
  addr_end <= W25Q128FV_FLASH_MEMORY_TOTAL_SIZE_IN_BYTES.
Hypothesis page_bias_range : 0 <= page_bias <= 2 ^ 32 - 2 ^ 24.

Lemma instruction_header (buf : list Z) b1 b2 b3 :
  length buf = 259%nat ->
  buf !! 0%nat = Some W25Q128FV_PAGE_PROGRAM_INSTRUCTION ->
  take 4 (<[3%nat := b3]> (<[2%nat := b2]> (<[1%nat := b1]> buf)))
  = [W25Q128FV_PAGE_PROGRAM_INSTRUCTION; b1; b2; b3].
Proof.
  intros Hlen H0.
  destruct buf as [|x0 [|x1 [|x2 [|x3 tl]]]]; simpl in Hlen; try lia.
  simpl in H0. injection H0 as ->. reflexivity.
Qed.

Lemma data_left_length w :
  0 <= w <= size ->
  length (take (Z.to_nat (size - w)) (drop (Z.to_nat w) src))
  = Z.to_nat (size - w).
Proof. intros Hw. rewrite length_take, length_drop. lia. Qed.

(** The write loop performs exactly the sequence [program_chunks] over the
    chunks that [split_chunks] cuts out of the bytes still to write. *)
Lemma write_loop_refines (fuel : nat) :
  forall buf w isz a s,
    0 <= w <= size -> 0 <= a -> a + (size - w) = addr_end ->
    length buf = 259%nat ->
    buf !! 0%nat = Some W25Q128FV_PAGE_PROGRAM_INSTRUCTION ->
    (Z.to_nat (size - w) <= fuel)%nat ->
    write_loop size src addr_end fuel
      (WState buf w isz a (256 - a mod 256)
              (page_bias + a / 256) (page_bias + a / 256 + 1)) s
    = finished
        (program_chunks
           (split_chunks fuel a
              (take (Z.to_nat (size - w)) (drop (Z.to_nat w) src)))) s.
Proof.
  unfold W25Q128FV_FLASH_MEMORY_TOTAL_SIZE_IN_BYTES in addr_end_in_device.
  induction fuel as [|fuel IH]; intros buf w isz a s Hw Ha Hend Hlen H0 Hfuel.
  - cbn [write_loop split_chunks program_chunks]. wstate_simpl.
    replace (a <? addr_end) with false by (symmetry; apply Z.ltb_ge; lia).
    reflexivity.
  - cbn [write_loop]. wstate_simpl.
    destruct (Z.ltb_spec a addr_end) as [Hlt|Hge].
    2:{ replace (Z.to_nat (size - w)) with 0%nat by lia. reflexivity. }
    assert (Hw' : 0 <= w < size) by lia.
    pose proof (data_left_length w Hw) as Hdlen.
    set (data := take (Z.to_nat (size - w)) (drop (Z.to_nat w) src)) in *.
    rewrite split_chunks_step by lia. cbv zeta.
    rewrite Hdlen. rewrite Z2Nat.id by lia.
    pose proof (chunk_len_bounds a (size - w) Ha ltac:(lia)) as Hn.
    set (n := chunk_len a (size - w)) in *.
    pose proof (Z.mod_pos_bound a 256 ltac:(lia)) as Hmod.
    assert (Hdiv : 0 <= a / 256 <= 65356) by (Z.div_mod_to_equations; lia).
    set (buf0 := <[3%nat := uint8 a]>
                   (<[2%nat := uint8 (Z.shiftr a 8)]>
                      (<[1%nat := uint8 (Z.shiftr a 16)]> buf))).
    destruct (populate_data_field_spec buf0 w isz a (page_bias + a / 256))
      as (buf' & Hrun & Hlen' & Htake'); try lia.
    { unfold buf0. rewrite !length_insert. exact Hlen. }
    fold n in Hrun, Htake'.
    assert (Hframe : take (Z.to_nat (uint16 (4 + n))) buf'
                     = page_frame a (take (Z.to_nat n) data)).
    { rewrite uint16_small by lia. rewrite Htake'.
      unfold buf0. rewrite instruction_header by assumption.
      unfold page_frame. cbn [app]. do 4 f_equal.
      unfold data. rewrite take_take. f_equal. lia. }
    cbn [program_chunks fst snd].
    bind_step. intros ret s1.
    destruct (ret !=? W25Q128FV_EC_OK); [reflexivity|].
    bind_step. intros _ s2.
    rewrite Hrun. wstate_simpl.
    replace (Z.of_nat (length buf') <? uint16 (4 + n)) with false
      by (symmetry; apply Z.ltb_ge; rewrite Hlen';
          rewrite uint16_small by lia; lia).
    rewrite finished_bind. apply bind_cong.
    { intros s3. unfold HAL_SPI_Transmit, transmit_frame.
      rewrite Hframe. reflexivity. }
    intros ret2 s3.
    bind_step. intros _ s4. cbv zeta.
    destruct (HAL_ret_handler ret2 !=? W25Q128FV_EC_OK); [reflexivity|].
    bind_step. intros _ s5.
    bind_step. intros ret3 s6.
    destruct (ret3 !=? W25Q128FV_EC_OK); [reflexivity|].
    replace (page_bias + a / 256 + ((a + n) / 256 - a / 256))
      with (page_bias + (a + n) / 256) by lia.
    rewrite Z2Nat.id by lia.
    rewrite (IH buf' (w + n) (4 + n) (a + n) s6); try lia.
    + do 3 f_equal.
      unfold data.
      replace (Z.to_nat (size - w))
        with (Z.to_nat n + Z.to_nat (size - (w + n)))%nat by lia.
      rewrite <- take_drop_commute, drop_drop. do 2 f_equal. lia.
    + apply (f_equal (fun l => l !! 0%nat)) in Htake'.
      rewrite lookup_take_lt in Htake' by lia.
      rewrite Htake'. unfold buf0.
      rewrite instruction_header by assumption. reflexivity.
Qed.

End SplitterProofs.

(** ** The whole write as a sequence of programmed chunks *)

Lemma resolved_address start_page page_bytes_offset :
  0 <= start_page < 2 ^ 32 -> 0 <= page_bytes_offset < 2 ^ 8 ->
  uint32 (start_page * 256 + page_bytes_offset)
  = start_page mod 2 ^ 24 * 256 + page_bytes_offset.
Proof.
  intros Hp Ho. unfold uint32.
  change (2 ^ 32) with 4294967296 in *. change (2 ^ 24) with 16777216.
  change (2 ^ 8) with 256 in *.
  Z.div_mod_to_equations. lia.
Qed.

Lemma write_refines start_page page_bytes_offset size src s :
  typed_request start_page page_bytes_offset size src ->
  let addr_start := uint32 (start_page * 256 + page_bytes_offset) in
  addr_start + size <= W25Q128FV_FLASH_MEMORY_TOTAL_SIZE_IN_BYTES ->
  w25q128fv_write_flash_memory start_page page_bytes_offset size src s
  = finished
      (program_chunks
         (split_chunks (Z.to_nat size) addr_start
            (take (Z.to_nat size) src))) s.
Proof.
  intros (Hp & Ho & Hs & Hsrc) addr_start Hend.
  unfold w25q128fv_write_flash_memory.
  unfold W25Q128FV_PAGE_SIZE_IN_BYTES,
    W25Q128FV_FLASH_MEMORY_TOTAL_SIZE_IN_BYTES in *.
  fold addr_start.
  pose proof (resolved_address start_page page_bytes_offset Hp Ho) as Ha.
  fold addr_start in Ha.
  change (2 ^ 32) with 4294967296 in *. change (2 ^ 24) with 16777216 in *.
  change (2 ^ 8) with 256 in *.
  pose proof (Z.mod_pos_bound start_page 16777216 ltac:(lia)) as Hr.
  assert (Hpage : start_page mod 16777216 <= 65356) by lia.
  assert (Hq : 0 <= start_page / 16777216 <= 255)
    by (Z.div_mod_to_equations; lia).
  assert (Hsp : start_page
                = 16777216 * (start_page / 16777216) + start_page mod 16777216)
    by (apply Z.div_mod; lia).
  rewrite (uint32_small (addr_start + size)) by lia.
  replace (addr_start + size >? 16731136) with false
    by (symmetry; rewrite Z.gtb_ltb; apply Z.ltb_ge; lia).
  rewrite (Z.div_small page_bytes_offset 256) by lia.
  rewrite Z.add_0_r.
  rewrite (uint32_small start_page) by lia.
  rewrite (uint32_small (start_page + 1)) by (change (2 ^ 32) with 4294967296; lia).
  assert (Hlow : uint32 (start_page * 256) = start_page mod 16777216 * 256).
  { pose proof (resolved_address start_page 0 Hp ltac:(lia)) as E.
    rewrite !Z.add_0_r in E. exact E. }
  rewrite Hlow.
  replace (addr_start - start_page mod 16777216 * 256)
    with page_bytes_offset by lia.
  rewrite (uint32_small page_bytes_offset) by (change (2 ^ 32) with 4294967296; lia).
  rewrite (uint32_small (256 - page_bytes_offset))
    by (change (2 ^ 32) with 4294967296; lia).
  rewrite (uint16_small (256 - page_bytes_offset))
    by (change (2 ^ 16) with 65536; lia).
  replace (256 - page_bytes_offset =? 0) with false
    by (symmetry; apply Z.eqb_neq; lia).
  assert (Hmod : addr_start mod 256 = page_bytes_offset)
    by (rewrite Ha; Z.div_mod_to_equations; lia).
  assert (Hdiv : addr_start / 256 = start_page mod 16777216)
    by (rewrite Ha; Z.div_mod_to_equations; lia).
  pose proof (write_loop_refines size src Hsrc ltac:(lia) (addr_start + size)
                (start_page - addr_start / 256)
                ltac:(unfold W25Q128FV_FLASH_MEMORY_TOTAL_SIZE_IN_BYTES; lia)
                ltac:(change (2 ^ 32) with 4294967296;
                      change (2 ^ 24) with 16777216; lia)
                (Z.to_nat size)) as R.
  specialize (R (<[0%nat := W25Q128FV_PAGE_PROGRAM_INSTRUCTION]>
                   (replicate
                      (Z.to_nat W25Q128FV_PAGE_PROGRAM_INSTRUCTION_MAX_SIZE_IN_BYTES)
                      0))
                0 4 addr_start s).
  rewrite Hmod in R.
  replace (start_page - addr_start / 256 + addr_start / 256)
    with start_page in R by lia.
  rewrite Z.sub_0_r in R. change (Z.to_nat 0) with 0%nat in R.
  rewrite drop_0 in R.
  apply R; try lia; reflexivity.
Qed.

(** Every call that C types allow is rejected by the range check, finds
    nothing to write, or programs the chunks of its data: the iterations
    granted to the loops always suffice. *)
Lemma write_run_cases start_page page_bytes_offset size src s :
  typed_request start_page page_bytes_offset size src ->
  w25q128fv_write_flash_memory start_page page_bytes_offset size src s
    = Run (Done W25Q128FV_EC_ERR) [] s
  \/ w25q128fv_write_flash_memory start_page page_bytes_offset size src s
     = Run (Done W25Q128FV_EC_OK) [] s
  \/ exists chunks,
       w25q128fv_write_flash_memory start_page page_bytes_offset size src s
       = finished (program_chunks chunks) s.
Proof.
  intros Ht.
  set (addr_start := uint32 (start_page * 256 + page_bytes_offset)).
  destruct (Z_le_gt_dec (addr_start + size)
              W25Q128FV_FLASH_MEMORY_TOTAL_SIZE_IN_BYTES) as [Hle|Hgt].
  - right. right. eexists. apply write_refines; assumption.
  - unfold w25q128fv_write_flash_memory.
    unfold W25Q128FV_PAGE_SIZE_IN_BYTES. fold addr_start.
    destruct (Z.gtb_spec (uint32 (addr_start + size))
                W25Q128FV_FLASH_MEMORY_TOTAL_SIZE_IN_BYTES) as [Hrej|Hacc];
      [left; reflexivity|].
    right. left.
    assert (Hback : uint32 (addr_start + size) <= addr_start).
    { destruct Ht as (_ & _ & Hs & _).
      assert (Ha : 0 <= addr_start < 2 ^ 32)
        by (apply Z.mod_pos_bound; lia).
      unfold W25Q128FV_FLASH_MEMORY_TOTAL_SIZE_IN_BYTES in *.
      unfold uint32 in Hacc |- *.
      change (2 ^ 32) with 4294967296 in *.
      Z.div_mod_to_equations. lia. }
    destruct (Z.to_nat size); cbn [write_loop]; wstate_simpl;
      replace (addr_start <? uint32 (addr_start + size)) with false
        by (symmetry; apply Z.ltb_ge; exact Hback);
      reflexivity.
Qed.

Lemma write_completes start_page page_bytes_offset size src s :
  typed_request start_page page_bytes_offset size src ->
  exists ret,
    value (w25q128fv_write_flash_memory start_page page_bytes_offset size src s)
    = Done ret.
Proof.
  intros Ht.
  destruct (write_run_cases _ _ _ _ s Ht) as [E|[E|(chunks & E)]];
    rewrite E; eexists; reflexivity.
Qed.

(** ** The programming sequence, one chunk at a time *)

Lemma write_enable_run s :
  send_w25q128fv_write_enable_instruction s
  = Run (reply_code s) (exchange [W25Q128FV_WRITE_ENABLE_INSTRUCTION])
        (after_reply s).
Proof.
  unfold send_w25q128fv_write_enable_instruction, reply_code, after_reply.
  cbv beta iota zeta delta
    [bind HAL_SPI_Transmit set_cs_pin_low set_cs_pin_high emit
     value trace rest].
  destruct (next_reply s) as [r s']. cbn [value trace rest fst snd].
  destruct (HAL_ret_handler (HAL_code (status r)) !=? W25Q128FV_EC_OK) eqn:E;
    [reflexivity|].
  apply negb_false_iff, Z.eqb_eq in E. rewrite E. reflexivity.
Qed.

Lemma write_disable_run s :
  send_w25q128fv_write_disable_instruction s
  = Run (reply_code s) (exchange [W25Q128FV_WRITE_DISABLE_INSTRUCTION])
        (after_reply s).
Proof.
  unfold send_w25q128fv_write_disable_instruction, reply_code, after_reply.
  cbv beta iota zeta delta
    [bind HAL_SPI_Transmit set_cs_pin_low set_cs_pin_high emit
     value trace rest].
  destruct (next_reply s) as [r s']. cbn [value trace rest fst snd].
  destruct (HAL_ret_handler (HAL_code (status r)) !=? W25Q128FV_EC_OK) eqn:E;
    [reflexivity|].
  apply negb_false_iff, Z.eqb_eq in E. rewrite E. reflexivity.
Qed.

Lemma transmit_frame_run frame s :
  transmit_frame frame s
  = Run (HAL_code (status (fst (next_reply s)))) [SPI_Transmit frame]
        (after_reply s).
Proof.
  unfold transmit_frame, after_reply. destruct (next_reply s); reflexivity.
Qed.

Lemma program_chunks_step chunk chunks s :
  program_chunks (chunk :: chunks) s
  = let s1 := after_reply s in
    let s2 := after_reply s1 in
    let s3 := after_reply s2 in
    if reply_code s !=? W25Q128FV_EC_OK then
      Run W25Q128FV_EC_ERR (exchange [W25Q128FV_WRITE_ENABLE_INSTRUCTION]) s1
    else if reply_code s1 !=? W25Q128FV_EC_OK then
      Run (reply_code s1)
          (exchange [W25Q128FV_WRITE_ENABLE_INSTRUCTION]
             ++ exchange (page_frame (fst chunk) (snd chunk))) s2
    else if reply_code s2 !=? W25Q128FV_EC_OK then
      Run W25Q128FV_EC_ERR (chunk_events chunk) s3
    else
      let r := program_chunks chunks s3 in
      Run (value r) (chunk_events chunk ++ trace r) (rest r).
Proof.
  cbn [program_chunks]. cbv zeta.
  rewrite (bind_Run _ _ s _ _ _ (write_enable_run s)).
  destruct (reply_code s !=? W25Q128FV_EC_OK); [reflexivity|].
  set (s1 := after_reply s).
  rewrite (bind_Run _ _ s1 tt [CS_WritePin GPIO_PIN_RESET] s1 eq_refl).
  rewrite (bind_Run _ _ _ _ _ _ (transmit_frame_run _ s1)).
  set (s2 := after_reply s1).
  rewrite (bind_Run _ _ s2 tt [CS_WritePin GPIO_PIN_SET] s2 eq_refl).
  fold (reply_code s1).
  destruct (reply_code s1 !=? W25Q128FV_EC_OK); [reflexivity|].
  rewrite (bind_Run _ _ s2 tt [Delay 3] s2 eq_refl).
  rewrite (bind_Run _ _ _ _ _ _ (write_disable_run s2)).
  destruct (reply_code s2 !=? W25Q128FV_EC_OK); reflexivity.
Qed.

Lemma sub_end_gt p : snd p <> [] -> fst p < sub_end p.
Proof.
  unfold sub_end. destruct (snd p); [congruence|]. cbn [length]. lia.
Qed.

Lemma contiguous_bounds subs : forall a e,
  contiguous a subs e ->
  a <= e /\ Forall (fun p => a <= fst p /\ fst p < sub_end p <= e) subs.
Proof.
  induction subs as [|p subs IH]; intros a e H; cbn [contiguous] in H.
  - split; [lia|constructor].
  - destruct H as (Hp & Hne & H). apply IH in H as (Hle & Hall).
    pose proof (sub_end_gt p Hne). split; [lia|].
    constructor; [lia|].
    eapply Forall_impl; [exact Hall|]. cbn beta. intros q Hq. lia.
Qed.

Lemma contiguous_cover subs : forall a e,
  contiguous a subs e ->
  forall x, a <= x < e <-> exists p, In p subs /\ covers p x.
Proof.
  induction subs as [|p subs IH]; intros a e H x; cbn [contiguous] in H.
  - split; [lia|]. intros (p & [] & _).
  - destruct H as (Hp & Hne & H).
    pose proof (sub_end_gt p Hne) as Hgt.
    pose proof (contiguous_bounds _ _ _ H) as (Hle & _).
    specialize (IH _ _ H x). split.
    + intros Hx. destruct (Z_lt_ge_dec x (sub_end p)) as [Hl|Hg].
      * exists p. split; [left; reflexivity|]. unfold covers. lia.
      * destruct IH as [IH _]. destruct (IH ltac:(lia)) as (q & Hq & Hc).
        exists q. split; [right; exact Hq|exact Hc].
    + intros (q & [->|Hq] & Hc).
      * unfold covers in Hc. lia.
      * destruct IH as [_ IH]. specialize (IH (ex_intro _ q (conj Hq Hc))). lia.
Qed.

Lemma contiguous_ordered subs : forall a e,
  contiguous a subs e ->
  forall (i j : nat) p q,
    (i < j)%nat -> subs !! i = Some p -> subs !! j = Some q ->
    sub_end p <= fst q.
Proof.
  induction subs as [|p0 subs IH]; intros a e H i j p q Hij Hi Hj;
    cbn [contiguous] in H.
  - destruct i; discriminate.
  - destruct H as (Hp & Hne & H). destruct j as [|j]; [lia|].
    cbn in Hj. destruct i as [|i].
    + cbn in Hi. injection Hi as ->.
      pose proof (contiguous_bounds _ _ _ H) as (_ & Hall).
      rewrite Forall_forall in Hall.
      apply list_elem_of_lookup_2 in Hj.
      specialize (Hall q Hj). lia.
    + cbn in Hi. apply (IH _ _ H i j); [lia|assumption|assumption].
Qed.

(** Each payload is the slice of the data at the offset of its range. *)
Lemma contiguous_payload subs : forall a e data,
  contiguous a subs e -> concat (map snd subs) = data ->
  Forall (fun p => snd p = take (length (snd p))
                             (drop (Z.to_nat (fst p - a)) data)) subs.
Proof.
  induction subs as [|p subs IH]; intros a e data H Hcat;
    cbn [contiguous] in H; [constructor|].
  destruct H as (Hp & Hne & H). cbn [map concat] in Hcat.
  pose proof (sub_end_gt p Hne) as Hgt.
  constructor.
  - rewrite Hp, Z.sub_diag. change (Z.to_nat 0) with 0%nat. rewrite drop_0.
    rewrite <- Hcat. rewrite take_app_length. reflexivity.
  - specialize (IH _ _ _ H eq_refl).
    pose proof (contiguous_bounds _ _ _ H) as (_ & Hall).
    rewrite Forall_forall in IH, Hall. apply Forall_forall. intros q Hq.
    rewrite (IH q Hq) at 1. specialize (Hall q Hq). f_equal.
    rewrite <- Hcat.
    replace (Z.to_nat (fst q - a))
      with (length (snd p) + Z.to_nat (fst q - sub_end p))%nat
      by (unfold sub_end in *; lia).
    rewrite <- drop_drop, drop_app_length. reflexivity.
Qed.

(** ** What [split_chunks] cuts *)

Lemma split_chunks_spec (fuel : nat) : forall a data e,
  0 <= a -> e = a + Z.of_nat (length data) -> (length data <= fuel)%nat ->
  contiguous a (split_chunks fuel a data) e
  /\ concat (map snd (split_chunks fuel a data)) = data
  /\ Forall (fun p => Z.of_nat (length (snd p))
                      = chunk_len (fst p) (e - fst p))
            (split_chunks fuel a data).
Proof.
  induction fuel as [|fuel IH]; intros a data e Ha He Hfuel.
  - destruct data; [|cbn in Hfuel; lia]. cbn in *. repeat split; [lia|constructor].
  - destruct data as [|d data'] eqn:Hd.
    + cbn in *. repeat split; [lia|constructor].
    + rewrite <- Hd in *. rewrite split_chunks_step by (rewrite Hd; cbn; lia).
      cbv zeta.
      assert (Hlen : (1 <= length data)%nat) by (rewrite Hd; cbn; lia).
      pose proof (chunk_len_bounds a (Z.of_nat (length data)) Ha ltac:(lia))
        as (Hn1 & Hn2 & Hn3).
      set (n := Z.to_nat (chunk_len a (Z.of_nat (length data)))) in *.
      assert (Htake : length (take n data) = n)
        by (rewrite length_take; lia).
      destruct (IH (a + Z.of_nat n) (drop n data) e) as (C & K & F);
        [lia|rewrite length_drop; lia|rewrite length_drop; lia|].
      cbn [contiguous map concat fst snd]. unfold sub_end. cbn [fst snd].
      rewrite Htake. repeat split.
      * intros E. rewrite E in Htake. cbn in Htake. lia.
      * exact C.
      * rewrite K. apply take_drop.
      * constructor; [|exact F]. cbn [fst snd]. rewrite Htake.
        replace (e - a) with (Z.of_nat (length data)) by lia. lia.
Qed.

(** ** Properties of the programming sequence *)

Lemma reply_code_ok s :
  all_ok s -> reply_code s = W25Q128FV_EC_OK /\ all_ok (after_reply s).
Proof.
  unfold all_ok, reply_code, after_reply. intros H.
  destruct s as [|r s]; cbn.
  - split; [reflexivity|constructor].
  - inversion H as [|? ? Hr Hs]; subst. rewrite Hr. split; [reflexivity|exact Hs].
Qed.

Lemma reply_code_failed bad tl :
  status bad <> HAL_OK ->
  reply_code (bad :: tl) = HAL_ret_handler (HAL_code (status bad))
  /\ (reply_code (bad :: tl) !=? W25Q128FV_EC_OK) = true
  /\ after_reply (bad :: tl) = tl.
Proof.
  intros H. unfold reply_code, after_reply. cbn.
  destruct (status bad); [congruence|..]; repeat split.
Qed.

Lemma page_programs_chunk_events a payload t :
  0 <= a < 2 ^ 24 ->
  page_programs (chunk_events (a, payload) ++ t) = (a, payload) :: page_programs t.
Proof.
  intros Ha. unfold page_programs. rewrite omap_app.
  cbn. rewrite address_bytes_decode by exact Ha. reflexivity.
Qed.

Lemma program_chunks_all_ok chunks : forall s,
  all_ok s -> Forall (fun p => 0 <= fst p < 2 ^ 24) chunks ->
  value (program_chunks chunks s) = W25Q128FV_EC_OK
  /\ page_programs (trace (program_chunks chunks s)) = chunks.
Proof.
  induction chunks as [|[a payload] chunks IH]; intros s Hs Hall.
  - split; reflexivity.
  - inversion Hall as [|? ? Ha Hall']; subst. cbn [fst] in Ha.
    rewrite program_chunks_step. cbv zeta.
    destruct (reply_code_ok s Hs) as (E1 & Hs1).
    destruct (reply_code_ok _ Hs1) as (E2 & Hs2).
    destruct (reply_code_ok _ Hs2) as (E3 & Hs3).
    rewrite E1, E2, E3. cbn [Z_neqb Z.eqb W25Q128FV_EC_OK negb value trace].
    destruct (IH _ Hs3 Hall') as (V & P). split; [exact V|].
    rewrite page_programs_chunk_events by exact Ha. rewrite P. reflexivity.
Qed.

(** Whatever the transport answers, the page programs sent are the first
    few chunks, in order. *)
Lemma program_chunks_prefix chunks : forall s,
  Forall (fun p => 0 <= fst p < 2 ^ 24) chunks ->
  exists k, page_programs (trace (program_chunks chunks s)) = take k chunks.
Proof.
  induction chunks as [|[a payload] chunks IH]; intros s Hall.
  - exists 0%nat. reflexivity.
  - inversion Hall as [|? ? Ha Hall']; subst. cbn [fst] in Ha.
    rewrite program_chunks_step. cbv zeta.
    destruct (reply_code s !=? W25Q128FV_EC_OK); [exists 0%nat; reflexivity|].
    destruct (reply_code (after_reply s) !=? W25Q128FV_EC_OK).
    { exists 1%nat. cbn [trace]. unfold page_programs. cbn.
      rewrite address_bytes_decode by exact Ha. reflexivity. }
    destruct (reply_code (after_reply (after_reply s)) !=? W25Q128FV_EC_OK).
    { exists 1%nat. cbn [trace].
      rewrite <- (app_nil_r (chunk_events _)).
      rewrite page_programs_chunk_events by exact Ha. reflexivity. }
    destruct (IH (after_reply (after_reply (after_reply s))) Hall') as (k & Hk).
    exists (S k). cbn [trace].
    rewrite page_programs_chunk_events by exact Ha. rewrite Hk. reflexivity.
Qed.

Lemma program_chunks_bracketed chunks : forall s,
  cs_bracketed false (trace (program_chunks chunks s)) = true.
Proof.
  induction chunks as [|chunk chunks IH]; intros s; [reflexivity|].
  rewrite program_chunks_step. cbv zeta.
  destruct (reply_code s !=? W25Q128FV_EC_OK); [reflexivity|].
  destruct (reply_code (after_reply s) !=? W25Q128FV_EC_OK); [reflexivity|].
  destruct (reply_code (after_reply (after_reply s)) !=? W25Q128FV_EC_OK);
    [reflexivity|].
  cbn [trace]. cbn. apply IH.
Qed.

Lemma program_chunks_calls chunks : forall s,
  all_ok s ->
  spi_calls (trace (program_chunks chunks s)) = (3 * length chunks)%nat.
Proof.
  induction chunks as [|chunk chunks IH]; intros s Hs; [reflexivity|].
  rewrite program_chunks_step. cbv zeta.
  destruct (reply_code_ok s Hs) as (E1 & Hs1).
  destruct (reply_code_ok _ Hs1) as (E2 & Hs2).
  destruct (reply_code_ok _ Hs2) as (E3 & Hs3).
  rewrite E1, E2, E3. cbn [Z_neqb Z.eqb W25Q128FV_EC_OK negb value trace].
  unfold spi_calls in *. cbn [chunk_events exchange app List.filter is_spi_call length].
  rewrite (IH _ Hs3). lia.
Qed.

(** The first reply that is not a success ends the sequence: a failed
    write-enable or write-disable gives Error, a failed page program gives
    its own result; the failing call is the last one made. *)
Lemma program_chunks_abort chunks : forall oks bad tl,
  all_ok oks -> status bad <> HAL_OK ->
  (length oks < 3 * length chunks)%nat ->
  let r := program_chunks chunks (oks ++ bad :: tl) in
  value r = (if (length oks mod 3 =? 1)%nat
             then HAL_ret_handler (HAL_code (status bad))
             else W25Q128FV_EC_ERR)
  /\ rest r = tl
  /\ spi_calls (trace r) = S (length oks).
Proof.
  induction chunks as [|chunk chunks IH]; intros oks bad tl Hoks Hbad Hlen r;
    [cbn in Hlen; lia|].
  subst r. rewrite program_chunks_step. cbv zeta.
  destruct (reply_code_failed bad tl Hbad) as (Fc & Fb & Fr).
  destruct oks as [|o1 oks].
  { cbn [app]. rewrite Fb, Fr. repeat split. }
  cbn [app].
  inversion Hoks as [|? ? Ho1 Hoks1]; subst.
  assert (E1' : reply_code (o1 :: oks ++ bad :: tl) = W25Q128FV_EC_OK)
    by (unfold reply_code; cbn; rewrite Ho1; reflexivity).
  assert (A1 : after_reply (o1 :: oks ++ bad :: tl) = oks ++ bad :: tl)
    by reflexivity.
  rewrite E1', A1. cbn [Z_neqb Z.eqb W25Q128FV_EC_OK negb].
  destruct oks as [|o2 oks].
  { cbn [app]. rewrite Fb, Fr, Fc. repeat split. }
  cbn [app].
  inversion Hoks1 as [|? ? Ho2 Hoks2]; subst.
  assert (E2 : reply_code (o2 :: oks ++ bad :: tl) = W25Q128FV_EC_OK)
    by (unfold reply_code; cbn; rewrite Ho2; reflexivity).
  assert (A2 : after_reply (o2 :: oks ++ bad :: tl) = oks ++ bad :: tl)
    by reflexivity.
  rewrite E2, A2. cbn [Z_neqb Z.eqb W25Q128FV_EC_OK negb].
  destruct oks as [|o3 oks].
  { cbn [app]. rewrite Fb, Fr. repeat split. }
  cbn [app].
  inversion Hoks2 as [|? ? Ho3 Hoks3]; subst.
  assert (E3 : reply_code (o3 :: oks ++ bad :: tl) = W25Q128FV_EC_OK)
    by (unfold reply_code; cbn; rewrite Ho3; reflexivity).
  assert (A3 : after_reply (o3 :: oks ++ bad :: tl) = oks ++ bad :: tl)
    by reflexivity.
  rewrite E3, A3. cbn [Z_neqb Z.eqb W25Q128FV_EC_OK negb value trace rest].
  destruct (IH oks bad tl Hoks3 Hbad ltac:(cbn [length] in Hlen; lia))
    as (V & R & C).
  repeat split.
  - rewrite V. cbn [length].
    replace (S (S (S (length oks)))) with (length oks + 1 * 3)%nat by lia.
    rewrite Nat.Div0.mod_add. reflexivity.
  - exact R.
  - unfold spi_calls in *.
    cbn [chunk_events exchange app List.filter is_spi_call length].
    rewrite C. reflexivity.
Qed.

(** ** Validated write requests *)

Lemma valid_request_typed start_page page_bytes_offset size src :
  valid_request start_page page_bytes_offset size src ->
  typed_request start_page page_bytes_offset size src
  /\ uint32 (start_page * 256 + page_bytes_offset)
     = start_page * 256 + page_bytes_offset.
Proof.
  unfold valid_request, typed_request, W25Q128FV_PAGE_SIZE_IN_BYTES,
    W25Q128FV_FLASH_MEMORY_TOTAL_SIZE_IN_BYTES.
  change (2 ^ 32) with 4294967296. change (2 ^ 8) with 256.
  intros (Hp & Ho & Hs & Hend).
  split; [lia|]. apply uint32_small. change (2 ^ 32) with 4294967296. lia.
Qed.

Lemma valid_write_run start_page page_bytes_offset size src s :
  valid_request start_page page_bytes_offset size src ->
  w25q128fv_write_flash_memory start_page page_bytes_offset size src s
  = finished
      (program_chunks (chunks_of start_page page_bytes_offset size src)) s.
Proof.
  intros H. destruct (valid_request_typed _ _ _ _ H) as (Ht & Ha).
  rewrite write_refines; [|exact Ht|].
  - rewrite Ha. reflexivity.
  - rewrite Ha. unfold valid_request, W25Q128FV_PAGE_SIZE_IN_BYTES in H. lia.
Qed.

Lemma chunks_of_spec start_page page_bytes_offset size src :
  valid_request start_page page_bytes_offset size src ->
  let addr_start := start_page * 256 + page_bytes_offset in
  let addr_end := addr_start + size in
  let chunks := chunks_of start_page page_bytes_offset size src in
  contiguous addr_start chunks addr_end
  /\ concat (map snd chunks) = take (Z.to_nat size) src
  /\ Forall (fun p => Z.of_nat (length (snd p))
                      = chunk_len (fst p) (addr_end - fst p)) chunks
  /\ Forall (fun p => 0 <= fst p < 2 ^ 24) chunks.
Proof.
  intros H addr_start addr_end chunks.
  unfold valid_request, W25Q128FV_PAGE_SIZE_IN_BYTES,
    W25Q128FV_FLASH_MEMORY_TOTAL_SIZE_IN_BYTES in H.
  destruct H as (Hp & Ho & Hs & Hend).
  assert (Hlen : length (take (Z.to_nat size) src) = Z.to_nat size)
    by (rewrite length_take; lia).
  destruct (split_chunks_spec (Z.to_nat size) addr_start
              (take (Z.to_nat size) src) addr_end) as (C & K & F);
    [unfold addr_start; lia|unfold addr_end; lia|lia|].
  repeat split; try assumption.
  pose proof (contiguous_bounds _ _ _ C) as (_ & B).
  eapply Forall_impl; [exact B|]. cbn beta. intros p Hpb.
  change (2 ^ 24) with 16777216. unfold addr_start, addr_end in *. lia.
Qed.

Lemma chunk_within_page a n :
  0 <= a -> 1 <= n <= 256 - a mod 256 -> a / 256 = (a + n - 1) / 256.
Proof. intros Ha Hn. Z.div_mod_to_equations. lia. Qed.

Lemma chunk_len_page_safe (p : Z * list Z) e :
  0 <= fst p < e ->
  Z.of_nat (length (snd p)) = chunk_len (fst p) (e - fst p) ->
  fst p / W25Q128FV_PAGE_SIZE_IN_BYTES
  = (sub_end p - 1) / W25Q128FV_PAGE_SIZE_IN_BYTES
  /\ Z.of_nat (length (snd p)) <= W25Q128FV_MAX_CONSECUTIVE_PROGRAMMABLE_BYTES.
Proof.
  intros Hp Hlen.
  pose proof (chunk_len_bounds (fst p) (e - fst p) ltac:(lia) ltac:(lia))
    as (H1 & H2 & H3).
  unfold sub_end, W25Q128FV_PAGE_SIZE_IN_BYTES,
    W25Q128FV_MAX_CONSECUTIVE_PROGRAMMABLE_BYTES.
  rewrite Hlen. split; [|lia].
  apply chunk_within_page; lia.
Qed.

Lemma program_chunks_frames chunks : forall s,
  Forall (fun p => Z.of_nat (length (snd p)) <= 255) chunks ->
  Forall frame_fits (trace (program_chunks chunks s)).
Proof.
  induction chunks as [|chunk chunks IH]; intros s Hall; [constructor|].
  inversion Hall as [|? ? Hc Hall']; subst.
  assert (Hev : Forall frame_fits (chunk_events chunk)).
  { unfold chunk_events, exchange, page_frame. cbn [app].
    repeat constructor; cbn [frame_fits];
      unfold W25Q128FV_PAGE_PROGRAM_INSTRUCTION_MAX_SIZE_IN_BYTES;
      cbn [length]; lia. }
  rewrite program_chunks_step. cbv zeta.
  destruct (reply_code s !=? W25Q128FV_EC_OK).
  { cbn [trace]. repeat constructor. cbn [frame_fits].
    unfold W25Q128FV_PAGE_PROGRAM_INSTRUCTION_MAX_SIZE_IN_BYTES; cbn; lia. }
  destruct (reply_code (after_reply s) !=? W25Q128FV_EC_OK).
  { cbn [trace]. unfold chunk_events in Hev.
    apply Forall_app in Hev as (H1 & H2). apply Forall_app in H2 as (H2 & _).
    apply Forall_app. split; assumption. }
  destruct (reply_code (after_reply (after_reply s)) !=? W25Q128FV_EC_OK).
  { exact Hev. }
  cbn [trace]. apply Forall_app. split; [exact Hev|apply IH; exact Hall'].
Qed.

Lemma split_chunks_plan (fuel : nat) : forall a data,
  0 <= a ->
  map (fun p => (fst p, Z.of_nat (length (snd p)))) (split_chunks fuel a data)
  = chunk_plan fuel a (length data).
Proof.
  induction fuel as [|fuel IH]; intros a data Ha; [reflexivity|].
  destruct data as [|d data'] eqn:Hd; [reflexivity|].
  rewrite <- Hd.
  assert (Hlen : (1 <= length data)%nat) by (rewrite Hd; cbn; lia).
  rewrite split_chunks_step by exact Hlen. cbv zeta.
  pose proof (chunk_len_bounds a (Z.of_nat (length data)) Ha ltac:(lia))
    as (Hn1 & Hn2 & Hn3).
  cbn [chunk_plan]. destruct (length data) as [|m] eqn:Hm; [lia|].
  rewrite <- Hm in *. cbn [map fst snd].
  set (n := Z.to_nat (chunk_len a (Z.of_nat (length data)))) in *.
  rewrite length_take. rewrite IH by lia. rewrite length_drop.
  replace (n `min` length data)%nat with n by lia. reflexivity.
Qed.

(** * The claims *)

(** ** C1 *)

(** C1. For a validated write request (start address plus length within the
    device) and a transport that succeeds, the write returns Ok and the
    page-program sub-instructions it sent, in order, have ranges that follow
    one another from the start address to the end address: they are
    contiguous, ordered without overlap, their union is exactly
    [start, end), and each carries the bytes of the source buffer that
    belong to its range. *)
Theorem write_covers_request start_page page_bytes_offset size src s :
  valid_request start_page page_bytes_offset size src -> all_ok s ->
  let addr_start := start_page * W25Q128FV_PAGE_SIZE_IN_BYTES + page_bytes_offset in
  let addr_end := addr_start + size in
  let r := w25q128fv_write_flash_memory start_page page_bytes_offset size src s in
  let subs := page_programs (trace r) in
  value r = Done W25Q128FV_EC_OK
  /\ contiguous addr_start subs addr_end
  /\ (forall (i j : nat) p q,
        (i < j)%nat -> subs !! i = Some p -> subs !! j = Some q ->
        sub_end p <= fst q)
  /\ (forall x, addr_start <= x < addr_end <-> exists p, In p subs /\ covers p x)
  /\ concat (map snd subs) = take (Z.to_nat size) src
  /\ Forall (fun p => snd p = take (length (snd p))
                               (drop (Z.to_nat (fst p - addr_start))
                                     (take (Z.to_nat size) src))) subs.
Proof.
  intros Hv Hs addr_start addr_end r subs.
  destruct (chunks_of_spec _ _ _ _ Hv) as (C & K & F & B).
  destruct (program_chunks_all_ok _ s Hs B) as (V & P).
  assert (Hsubs : subs = chunks_of start_page page_bytes_offset size src).
  { unfold subs, r. rewrite valid_write_run by exact Hv. exact P. }
  assert (Hval : value r = Done W25Q128FV_EC_OK).
  { unfold r. rewrite valid_write_run by exact Hv.
    unfold finished. cbn [value]. rewrite V. reflexivity. }
  rewrite Hsubs. unfold addr_start, addr_end, W25Q128FV_PAGE_SIZE_IN_BYTES.
  split; [exact Hval|]. split; [exact C|].
  split; [exact (contiguous_ordered _ _ _ C)|].
  split; [exact (contiguous_cover _ _ _ C)|].
  split; [exact K|].
  exact (contiguous_payload _ _ _ _ C K).
Qed.

Lemma write_covers_request_witness :
  value (w25q128fv_write_flash_memory 1 250 8 [10; 11; 12; 13; 14; 15; 16; 17] [])
  = Done W25Q128FV_EC_OK.
Proof.
  assert (Hv : valid_request 1 250 8 [10; 11; 12; 13; 14; 15; 16; 17])
    by (unfold valid_request; vm_compute; repeat split; discriminate).
  assert (Hs : all_ok []) by constructor.
  exact (proj1 (write_covers_request 1 250 8 _ [] Hv Hs)).
Defined.

(** ** C2 *)

(** C2 as stated fails: the 300-byte write at page 0, offset 250 is sent as
    five sub-instructions, not three, and a write that fills one page from
    offset 0 is sent as two, the first of which is shorter than the chunk
    of the stated rule. *)
Lemma write_chunks_differ_from_stated_rule :
  let t300 := trace (w25q128fv_write_flash_memory 0 250 300 (replicate 300 0) []) in
  let t256 := trace (w25q128fv_write_flash_memory 0 0 256 (replicate 256 0) []) in
  chunk_sizes t300 <> [6; 256; 38]
  /\ chunk_sizes t256 <> [256]
  /\ ~ Forall (fun p => Z.of_nat (length (snd p)) = spec_chunk_len (fst p) (256 - fst p))
              (page_programs t256).
Proof.
  split; [|split].
  - vm_compute. discriminate.
  - vm_compute. discriminate.
  - intros H. apply Forall_inv in H. vm_compute in H. discriminate.
Qed.

Lemma chunk_plan_step (fuel : nat) (addr : Z) (bytes_left : nat) :
  (1 <= bytes_left)%nat ->
  chunk_plan (S fuel) addr bytes_left
  = let n := Z.to_nat (chunk_len addr (Z.of_nat bytes_left)) in
    (addr, Z.of_nat n) :: chunk_plan fuel (addr + Z.of_nat n) (bytes_left - n).
Proof. intros H. destruct bytes_left; [lia|reflexivity]. Qed.

Lemma chunk_plan_done (fuel : nat) (addr : Z) : chunk_plan fuel addr 0 = [].
Proof. destruct fuel; reflexivity. Qed.

Lemma chunk_len_on_boundary addr bytes_left :
  addr mod 256 = 0 -> chunk_len addr bytes_left = 1.
Proof.
  intros H. unfold chunk_len, W25Q128FV_PAGE_SIZE_IN_BYTES. rewrite H.
  reflexivity.
Qed.

Lemma chunk_len_inside_page addr bytes_left :
  addr mod 256 <> 0 ->
  chunk_len addr bytes_left = Z.min (256 - addr mod 256) bytes_left.
Proof.
  intros H. unfold chunk_len, W25Q128FV_PAGE_SIZE_IN_BYTES.
  replace (256 - addr mod 256 =? 256) with false
    by (symmetry; apply Z.eqb_neq; lia).
  reflexivity.
Qed.

(** C2, amended. For a validated write request, whatever the transport
    answers, each sub-instruction sent carries [chunk_len] bytes: one byte
    when it starts on a page boundary, otherwise the smaller of what
    remains in the page and what remains to write; that is never more than
    the maximum payload.  With a transport that succeeds, the 300-byte
    write at page 0, offset 250 is sent as 6, 1, 255, 1 and 37 bytes at
    addresses 250, 256, 257, 512 and 513, and a write filling one page of
    the device from offset 0 is sent as 1 and 255 bytes at the first and
    the second address of the page. *)
Theorem write_chunk_sizes :
  (forall start_page page_bytes_offset size src s,
      valid_request start_page page_bytes_offset size src ->
      let addr_end :=
        start_page * W25Q128FV_PAGE_SIZE_IN_BYTES + page_bytes_offset + size in
      let r := w25q128fv_write_flash_memory start_page page_bytes_offset size src s in
      Forall (fun p => Z.of_nat (length (snd p))
                       = chunk_len (fst p) (addr_end - fst p)
                       /\ Z.of_nat (length (snd p))
                          <= W25Q128FV_MAX_CONSECUTIVE_PROGRAMMABLE_BYTES)
             (page_programs (trace r)))
  /\ (forall src s,
        (300 <= length src)%nat -> all_ok s ->
        sub_ranges (trace (w25q128fv_write_flash_memory 0 250 300 src s))
        = [(250, 6); (256, 1); (257, 255); (512, 1); (513, 37)])
  /\ (forall page src s,
        0 <= page ->
        page * W25Q128FV_PAGE_SIZE_IN_BYTES + W25Q128FV_PAGE_SIZE_IN_BYTES
          <= W25Q128FV_FLASH_MEMORY_TOTAL_SIZE_IN_BYTES ->
        (256 <= length src)%nat -> all_ok s ->
        sub_ranges (trace (w25q128fv_write_flash_memory
                             page 0 W25Q128FV_PAGE_SIZE_IN_BYTES src s))
        = [(page * W25Q128FV_PAGE_SIZE_IN_BYTES, 1);
           (page * W25Q128FV_PAGE_SIZE_IN_BYTES + 1, 255)]).
Proof.
  assert (General : forall start_page page_bytes_offset size src s,
    valid_request start_page page_bytes_offset size src -> all_ok s ->
    page_programs
      (trace (w25q128fv_write_flash_memory start_page page_bytes_offset size src s))
    = chunks_of start_page page_bytes_offset size src).
  { intros sp off size src s Hv Hs.
    destruct (chunks_of_spec _ _ _ _ Hv) as (_ & _ & _ & B).
    rewrite valid_write_run by exact Hv.
    exact (proj2 (program_chunks_all_ok _ s Hs B)). }
  split; [|split].
  - intros sp off size src s Hv addr_end r.
    pose proof (chunks_of_spec _ _ _ _ Hv) as Hspec. cbv zeta in Hspec.
    destruct Hspec as (C & _ & F & B).
    pose proof (contiguous_bounds _ _ _ C) as (_ & Hb).
    destruct (program_chunks_prefix _ s B) as (k & Hk).
    assert (Hprog : page_programs (trace r)
                    = take k (chunks_of sp off size src)).
    { unfold r. rewrite valid_write_run by exact Hv. exact Hk. }
    rewrite Hprog. apply Forall_take.
    rewrite Forall_forall in *. intros p Hp.
    split; [exact (F p Hp)|].
    apply (chunk_len_page_safe p addr_end); [|exact (F p Hp)].
    specialize (Hb p Hp). specialize (B p Hp).
    unfold addr_end, W25Q128FV_PAGE_SIZE_IN_BYTES. lia.
  - intros src s Hlen Hs. unfold sub_ranges.
    rewrite General;
      [|unfold valid_request, W25Q128FV_PAGE_SIZE_IN_BYTES,
          W25Q128FV_FLASH_MEMORY_TOTAL_SIZE_IN_BYTES; lia|exact Hs].
    unfold chunks_of. rewrite split_chunks_plan by lia.
    rewrite length_take. replace (Z.to_nat 300 `min` length src)%nat with 300%nat by lia.
    vm_compute. reflexivity.
  - unfold W25Q128FV_PAGE_SIZE_IN_BYTES,
      W25Q128FV_FLASH_MEMORY_TOTAL_SIZE_IN_BYTES.
    intros page src s Hpage Hend Hlen Hs. unfold sub_ranges.
    rewrite General;
      [|unfold valid_request, W25Q128FV_PAGE_SIZE_IN_BYTES,
          W25Q128FV_FLASH_MEMORY_TOTAL_SIZE_IN_BYTES; lia|exact Hs].
    unfold chunks_of. rewrite split_chunks_plan by lia.
    rewrite length_take.
    replace (Z.to_nat 256 `min` length src)%nat with 256%nat by lia.
    change (Z.to_nat 256) with 256%nat.
    rewrite Z.add_0_r.
    rewrite chunk_plan_step by lia. cbv zeta.
    rewrite (chunk_len_on_boundary (page * 256))
      by (apply Z.mod_mul; lia).
    change (Z.to_nat 1) with 1%nat. change (Z.of_nat 1) with 1.
    change (256 - 1)%nat with 255%nat.
    rewrite chunk_plan_step by lia. cbv zeta.
    rewrite (chunk_len_inside_page (page * 256 + 1))
      by (Z.div_mod_to_equations; lia).
    replace ((page * 256 + 1) mod 256) with 1
      by (Z.div_mod_to_equations; lia).
    change (Z.of_nat 255) with 255. change (Z.min (256 - 1) 255) with 255.
    change (Z.to_nat 255) with 255%nat. change (Z.of_nat 255) with 255.
    change (255 - 255)%nat with 0%nat.
    rewrite chunk_plan_done. reflexivity.
Qed.

Lemma write_chunk_sizes_witness :
  sub_ranges (trace (w25q128fv_write_flash_memory
                       5 0 W25Q128FV_PAGE_SIZE_IN_BYTES (replicate 256 0) []))
  = [(5 * W25Q128FV_PAGE_SIZE_IN_BYTES, 1);
     (5 * W25Q128FV_PAGE_SIZE_IN_BYTES + 1, 255)].
Proof.
  assert (Hend : 5 * W25Q128FV_PAGE_SIZE_IN_BYTES + W25Q128FV_PAGE_SIZE_IN_BYTES
                 <= W25Q128FV_FLASH_MEMORY_TOTAL_SIZE_IN_BYTES)
    by (vm_compute; discriminate).
  assert (Hlen : (256 <= length (replicate 256 0%Z))%nat)
    by (rewrite length_replicate; apply Nat.le_refl).
  assert (Hs : all_ok []) by constructor.
  exact (proj2 (proj2 write_chunk_sizes) 5 (replicate 256 0) []
           ltac:(lia) Hend Hlen Hs).
Defined.

(** ** C3 *)

(** C3. For a validated write request, whatever the transport answers, the
    write runs to completion without an access outside the instruction
    buffer or the source, be it by an index of the loops or by the number of
    bytes that the transport is told to send from the buffer; no
    sub-instruction it sends crosses a page boundary or carries more than
    the maximum payload, and no transmitted frame is longer than the
    259-byte instruction buffer. *)
Theorem write_page_safe start_page page_bytes_offset size src s :
  valid_request start_page page_bytes_offset size src ->
  let r := w25q128fv_write_flash_memory start_page page_bytes_offset size src s in
  (exists ret, value r = Done ret)
  /\ Forall (fun p =>
               fst p / W25Q128FV_PAGE_SIZE_IN_BYTES
               = (sub_end p - 1) / W25Q128FV_PAGE_SIZE_IN_BYTES
               /\ Z.of_nat (length (snd p))
                  <= W25Q128FV_MAX_CONSECUTIVE_PROGRAMMABLE_BYTES)
            (page_programs (trace r))
  /\ Forall frame_fits (trace r).
Proof.
  intros Hv r. unfold r. rewrite valid_write_run by exact Hv.
  destruct (chunks_of_spec _ _ _ _ Hv) as (C & K & F & B).
  set (chunks := chunks_of start_page page_bytes_offset size src) in *.
  pose proof (contiguous_bounds _ _ _ C) as (_ & Hb).
  assert (Safe : Forall (fun p =>
               fst p / W25Q128FV_PAGE_SIZE_IN_BYTES
               = (sub_end p - 1) / W25Q128FV_PAGE_SIZE_IN_BYTES
               /\ Z.of_nat (length (snd p))
                  <= W25Q128FV_MAX_CONSECUTIVE_PROGRAMMABLE_BYTES) chunks).
  { rewrite Forall_forall in *. intros p Hp.
    apply (chunk_len_page_safe p
             (start_page * 256 + page_bytes_offset + size)).
    - specialize (Hb p Hp). specialize (B p Hp). lia.
    - exact (F p Hp). }
  split; [|split].
  - eexists. reflexivity.
  - destruct (program_chunks_prefix chunks s B) as (k & Hk).
    cbn [finished trace]. unfold finished. cbn [trace]. rewrite Hk.
    apply Forall_take. exact Safe.
  - unfold finished. cbn [trace]. apply program_chunks_frames.
    eapply Forall_impl; [exact Safe|]. cbn beta.
    unfold W25Q128FV_MAX_CONSECUTIVE_PROGRAMMABLE_BYTES. intros p Hp. lia.
Qed.

Lemma write_page_safe_witness :
  Forall frame_fits
    (trace (w25q128fv_write_flash_memory 0 250 300 (replicate 300 0)
              [Reply HAL_OK []; Reply HAL_OK []; Reply HAL_OK [];
               Reply HAL_OK []; Reply HAL_TIMEOUT []])).
Proof.
  assert (Hv : valid_request 0 250 300 (replicate 300 0))
    by (unfold valid_request; vm_compute; repeat split; discriminate).
  exact (proj2 (proj2 (write_page_safe 0 250 300 _ _ Hv))).
Defined.

(** ** C5 *)

(** C5 as stated fails: in the 300-byte write at page 0, offset 250, which
    takes five sub-instructions, a write-enable step that reports
    NoResponse, be it the first of the write or the one of the second chunk,
    makes the write return Error, not that result. *)
Lemma multi_chunk_write_enable_failure_is_not_passed_on :
  let src := replicate 300 0 in
  let first := [Reply HAL_TIMEOUT []] in
  let later := [Reply HAL_OK []; Reply HAL_OK []; Reply HAL_OK [];
                Reply HAL_TIMEOUT []] in
  length (page_programs (trace (w25q128fv_write_flash_memory 0 250 300 src [])))
  = 5%nat
  /\ value (send_w25q128fv_write_enable_instruction first) = W25Q128FV_EC_NR
  /\ value (w25q128fv_write_flash_memory 0 250 300 src first)
     <> Done (value (send_w25q128fv_write_enable_instruction first))
  /\ value (w25q128fv_write_flash_memory 0 250 300 src later)
     <> Done (value (send_w25q128fv_write_enable_instruction
                       [Reply HAL_TIMEOUT []])).
Proof.
  cbv zeta. split; [vm_compute; reflexivity|].
  split; [reflexivity|].
  split; vm_compute; discriminate.
Qed.

(** C5, amended. For a validated write request, when the first transport
    call that does not succeed is one that the write reaches, the write
    stops there: it returns the result of that step if it is the
    page-program transmission, and Error if it is the write-enable or the
    write-disable step; it makes no further transport call. *)
Theorem write_aborts_on_first_failure
    start_page page_bytes_offset size src oks bad tl :
  valid_request start_page page_bytes_offset size src ->
  all_ok oks -> status bad <> HAL_OK ->
  (length oks
   < spi_calls
       (trace (w25q128fv_write_flash_memory start_page page_bytes_offset size src [])))%nat ->
  let r := w25q128fv_write_flash_memory start_page page_bytes_offset size src
             (oks ++ bad :: tl) in
  value r = Done (if (length oks mod 3 =? 1)%nat
                  then HAL_ret_handler (HAL_code (status bad))
                  else W25Q128FV_EC_ERR)
  /\ rest r = tl
  /\ spi_calls (trace r) = S (length oks).
Proof.
  intros Hv Hoks Hbad Hlen r. unfold r.
  rewrite valid_write_run in * by exact Hv.
  unfold finished in *. cbn [value trace rest] in *.
  rewrite program_chunks_calls in Hlen by constructor.
  destruct (program_chunks_abort _ oks bad tl Hoks Hbad Hlen) as (V & R & C).
  rewrite V. repeat split; assumption.
Qed.

Lemma write_aborts_on_first_failure_witness :
  value (w25q128fv_write_flash_memory 0 250 300 (replicate 300 0)
           [Reply HAL_OK []; Reply HAL_OK []; Reply HAL_OK [];
            Reply HAL_OK []; Reply HAL_BUSY []; Reply HAL_OK []])
  = Done W25Q128FV_EC_NR.
Proof.
  assert (Hv : valid_request 0 250 300 (replicate 300 0))
    by (unfold valid_request; vm_compute; repeat split; discriminate).
  assert (Hoks : all_ok [Reply HAL_OK []; Reply HAL_OK []; Reply HAL_OK [];
                         Reply HAL_OK []])
    by (repeat constructor).
  assert (Hbad : status (Reply HAL_BUSY []) <> HAL_OK) by discriminate.
  assert (Hlen : (length [Reply HAL_OK []; Reply HAL_OK []; Reply HAL_OK [];
                          Reply HAL_OK []]
                  < spi_calls
                      (trace (w25q128fv_write_flash_memory 0 250 300
                                (replicate 300 0%Z) [])))%nat)
    by (vm_compute; lia).
  exact (proj1 (write_aborts_on_first_failure 0 250 300 _ _ _
                  [Reply HAL_OK []] Hv Hoks Hbad Hlen)).
Defined.

(** ** C9 *)

(** C9. A write of zero bytes at a start position within the device returns
    Ok and produces no event at all; it consumes no transport reply. *)
Theorem write_of_nothing start_page page_bytes_offset src s :
  0 <= start_page -> 0 <= page_bytes_offset < 256 ->
  start_page * W25Q128FV_PAGE_SIZE_IN_BYTES + page_bytes_offset
    <= W25Q128FV_FLASH_MEMORY_TOTAL_SIZE_IN_BYTES ->
  w25q128fv_write_flash_memory start_page page_bytes_offset 0 src s
  = Run (Done W25Q128FV_EC_OK) [] s.
Proof.
  intros Hp Ho Hend. rewrite valid_write_run; [reflexivity|].
  unfold valid_request. repeat split; lia.
Qed.

Lemma write_of_nothing_witness :
  w25q128fv_write_flash_memory 3 17 0 [] [Reply HAL_ERROR []]
  = Run (Done W25Q128FV_EC_OK) [] [Reply HAL_ERROR []].
Proof.
  assert (Hend : 3 * W25Q128FV_PAGE_SIZE_IN_BYTES + 17
                 <= W25Q128FV_FLASH_MEMORY_TOTAL_SIZE_IN_BYTES)
    by (vm_compute; discriminate).
  exact (write_of_nothing 3 17 [] [Reply HAL_ERROR []]
           ltac:(lia) ltac:(lia) Hend).
Defined.

(** ** Packing bytes *)

Lemma lor_low_bits x y k :
  0 <= k -> 0 <= y < 2 ^ k -> Z.lor (x * 2 ^ k) y = x * 2 ^ k + y.
Proof.
  intros Hk Hy.
  assert (Hland : Z.land (x * 2 ^ k) y = 0).
  { apply Z.bits_inj'. intros n Hn. rewrite Z.land_spec, Z.bits_0.
    destruct (Z_lt_ge_dec n k) as [Hlt|Hge].
    - rewrite Z.mul_pow2_bits_low by lia. reflexivity.
    - destruct (Z.eq_dec y 0) as [->|Hy0].
      + rewrite Z.bits_0. apply andb_false_r.
      + rewrite (Z.bits_above_log2 y n); [apply andb_false_r|lia|].
        apply Z.log2_lt_pow2; [lia|].
        apply Z.lt_le_trans with (2 ^ k); [lia|].
        apply Z.pow_le_mono_r; lia. }
  rewrite <- Z.lxor_lor by exact Hland.
  symmetry. apply Z.add_nocarry_lxor. exact Hland.
Qed.

Lemma jedec_pack b0 b1 b2 :
  0 <= b0 < 256 -> 0 <= b1 < 256 -> 0 <= b2 < 256 ->
  uint32 (Z.lor (Z.lor (Z.shiftl b0 16) (Z.shiftl b1 8)) b2)
  = b0 * 65536 + b1 * 256 + b2.
Proof.
  intros H0 H1 H2.
  rewrite !Z.shiftl_mul_pow2 by lia.
  rewrite (lor_low_bits b0 (b1 * 2 ^ 8) 16) by lia.
  replace (b0 * 2 ^ 16 + b1 * 2 ^ 8) with ((b0 * 2 ^ 8 + b1) * 2 ^ 8) by lia.
  rewrite lor_low_bits by lia.
  rewrite uint32_small by lia. lia.
Qed.

(** ** C7 *)

(** C7. The status mapper sends every transport outcome to one of the three
    results of the driver: busy and timeout to NoResponse, a transport
    error to Error, success to Ok. *)
Theorem HAL_ret_handler_total (h : HAL_StatusTypeDef) :
  HAL_ret_handler (HAL_code h)
  = match h with
    | HAL_BUSY | HAL_TIMEOUT => W25Q128FV_EC_NR
    | HAL_ERROR => W25Q128FV_EC_ERR
    | HAL_OK => W25Q128FV_EC_OK
    end
  /\ In (HAL_ret_handler (HAL_code h))
        [W25Q128FV_EC_OK; W25Q128FV_EC_NR; W25Q128FV_EC_ERR].
Proof. destruct h; cbn; auto. Qed.

(** ** C6 *)

(** C6. When both transport calls of [w25q128fv_read_id] succeed and the
    device answers the bytes [b0], [b1], [b2], the result is NoResponse
    exactly when the three bytes are zero; otherwise it is Ok and the one
    value stored is the big-endian 24-bit number [b0 b1 b2]. *)
Theorem read_id_packs_jedec_bytes b0 b1 b2 r1 r2 s :
  0 <= b0 < 256 -> 0 <= b1 < 256 -> 0 <= b2 < 256 ->
  status r1 = HAL_OK -> status r2 = HAL_OK -> take 3 (rx r2) = [b0; b1; b2] ->
  let r := w25q128fv_read_id (r1 :: r2 :: s) in
  (value r = W25Q128FV_EC_NR <-> b0 = 0 /\ b1 = 0 /\ b2 = 0)
  /\ (~ (b0 = 0 /\ b1 = 0 /\ b2 = 0) ->
      value r = W25Q128FV_EC_OK
      /\ stores (trace r) = [b0 * 65536 + b1 * 256 + b2]
      /\ forall before,
           id_after before (trace r) = b0 * 65536 + b1 * 256 + b2).
Proof.
  intros H0 H1 H2 Hr1 Hr2 Hrx r. subst r.
  destruct r1 as [st1 d1], r2 as [st2 d2]. cbn [status rx] in *. subst.
  unfold w25q128fv_read_id. monad_unfold.
  cbn [next_reply status rx HAL_code HAL_ret_handler Z.eqb orb negb Z_neqb
       W25Q128FV_EC_OK fst snd].
  change (Z.to_nat (uint16 3)) with 3%nat. rewrite Hrx.
  cbn [length drop app byte_at lookup list_lookup default from_option].
  unfold id.
  assert (Hpack := jedec_pack b0 b1 b2 H0 H1 H2).
  destruct (Z.eqb_spec b0 0) as [E0|E0];
    destruct (Z.eqb_spec b1 0) as [E1|E1];
    destruct (Z.eqb_spec b2 0) as [E2|E2];
    cbn [andb]; cbn [stores omap id_after foldl app];
    rewrite ?Hpack;
    (split; [split; [intros H; try discriminate H; tauto
                    |intros H; try reflexivity; tauto]
            |intros Hnz; try tauto; repeat split]).
Qed.

Lemma read_id_packs_jedec_bytes_witness :
  stores (trace (w25q128fv_read_id
                   [Reply HAL_OK []; Reply HAL_OK [0xEF; 0x40; 0x18]]))
  = [0xEF4018].
Proof.
  assert (Hnz : ~ (0xEF = 0 /\ 0x40 = 0 /\ 0x18 = 0))
    by (intros (H & _); discriminate H).
  exact (proj1 (proj2 (proj2 (read_id_packs_jedec_bytes 0xEF 0x40 0x18
                                (Reply HAL_OK [])
                                (Reply HAL_OK [0xEF; 0x40; 0x18]) []
                                ltac:(lia) ltac:(lia) ltac:(lia)
                                eq_refl eq_refl eq_refl) Hnz))).
Defined.

(** ** C10 *)

(** C10. Whenever [w25q128fv_read_id] returns anything other than Ok it
    makes no store through [w25q128fv_id], so the caller's location keeps
    its value; when it returns Ok it makes exactly one store. *)
Theorem read_id_stores_only_on_ok s before :
  let r := w25q128fv_read_id s in
  (value r <> W25Q128FV_EC_OK ->
   stores (trace r) = [] /\ id_after before (trace r) = before)
  /\ (value r = W25Q128FV_EC_OK -> length (stores (trace r)) = 1%nat).
Proof.
  cbv zeta. unfold w25q128fv_read_id. monad_unfold.
  step_reply; try (split; [intros _; split; reflexivity|discriminate]).
  step_reply; try (split; [intros _; split; reflexivity|discriminate]).
  match goal with
  | |- context [if ?c then _ else _] => destruct c
  end; cbn [value trace app].
  - split; [intros _; split; reflexivity|discriminate].
  - split; [intros H; contradiction H; reflexivity|intros _; reflexivity].
Qed.

Lemma read_id_stores_only_on_ok_witness :
  id_after 42 (trace (w25q128fv_read_id [Reply HAL_OK []; Reply HAL_OK [0; 0; 0]]))
  = 42.
Proof.
  assert (Hne : value (w25q128fv_read_id
                         [Reply HAL_OK []; Reply HAL_OK [0; 0; 0]])
                <> W25Q128FV_EC_OK)
    by (vm_compute; discriminate).
  exact (proj2 (proj1 (read_id_stores_only_on_ok _ 42) Hne)).
Defined.

(** ** C8 *)

(** C8. On every run of every public operation the chip-select line is
    released again: in the trace each pull to low is followed by a release
    to high before the next pull and before the end, and every SPI
    exchange lies between the two. *)
Theorem chip_select_released :
  (forall s, cs_bracketed false (trace (w25q128fv_software_reset s)) = true)
  /\ (forall s, cs_bracketed false (trace (w25q128fv_read_id s)) = true)
  /\ (forall start_page page_bytes_offset size dst s,
        cs_bracketed false
          (trace (w25q128fv_read_flash_memory
                    start_page page_bytes_offset size dst s)) = true)
  /\ (forall start_page page_bytes_offset size dst s,
        cs_bracketed false
          (trace (w25q128fv_fast_read_flash_memory
                    start_page page_bytes_offset size dst s)) = true)
  /\ (forall sector_number s,
        cs_bracketed false (trace (w25q128fv_erase_sector sector_number s))
        = true)
  /\ (forall s, cs_bracketed false (trace (w25q128fv_chip_erase s)) = true)
  /\ (forall start_page page_bytes_offset size src s,
        typed_request start_page page_bytes_offset size src ->
        cs_bracketed false
          (trace (w25q128fv_write_flash_memory
                    start_page page_bytes_offset size src s)) = true).
Proof.
  repeat apply conj.
  - intros s. unfold w25q128fv_software_reset. monad_unfold.
    step_reply; reflexivity.
  - intros s. unfold w25q128fv_read_id. monad_unfold.
    step_reply; try reflexivity. step_reply; try reflexivity.
    match goal with
    | |- context [if ?c then _ else _] => destruct c
    end; reflexivity.
  - intros start_page page_bytes_offset size dst s.
    unfold w25q128fv_read_flash_memory.
    match goal with
    | |- context [if ?c then _ else _] => destruct c
    end; [reflexivity|].
    monad_unfold. step_reply; try reflexivity. step_reply; reflexivity.
  - intros start_page page_bytes_offset size dst s.
    unfold w25q128fv_fast_read_flash_memory.
    match goal with
    | |- context [if ?c then _ else _] => destruct c
    end; [reflexivity|].
    monad_unfold. step_reply; try reflexivity. step_reply; reflexivity.
  - intros sector_number s. unfold w25q128fv_erase_sector.
    destruct (sector_number >? W25Q128FV_TOTAL_SECTORS_MINUS_ONE);
      [reflexivity|].
    unfold send_w25q128fv_write_enable_instruction,
      send_w25q128fv_write_disable_instruction.
    monad_unfold. step_reply; try reflexivity.
    step_reply; try reflexivity. step_reply; reflexivity.
  - intros s. unfold w25q128fv_chip_erase.
    unfold send_w25q128fv_write_enable_instruction,
      send_w25q128fv_write_disable_instruction.
    monad_unfold. step_reply; try reflexivity.
    step_reply; try reflexivity. step_reply; reflexivity.
  - intros start_page page_bytes_offset size src s Ht.
    destruct (write_run_cases _ _ _ _ s Ht) as [E|[E|(chunks & E)]];
      rewrite E; [reflexivity|reflexivity|].
    unfold finished. cbn [trace]. apply program_chunks_bracketed.
Qed.

Lemma chip_select_released_witness :
  cs_bracketed false
    (trace (w25q128fv_write_flash_memory 0 250 300 (replicate 300 0)
              [Reply HAL_OK []; Reply HAL_ERROR []])) = true.
Proof.
  assert (Ht : typed_request 0 250 300 (replicate 300 0))
    by (unfold typed_request; vm_compute; repeat split; discriminate).
  exact (proj2 (proj2 (proj2 (proj2 (proj2 (proj2 chip_select_released)))))
           0 250 300 _ _ Ht).
Defined.

(** ** C4 *)

(** Where the 32-bit address arithmetic does not wrap around, a range that
    ends beyond the device is rejected with Error before any event. *)
Lemma out_of_range_rejected start_page page_bytes_offset size buf s :
  0 <= start_page -> 0 <= page_bytes_offset -> 0 <= size ->
  start_page * 256 + page_bytes_offset + size < 2 ^ 32 ->
  start_page * 256 + page_bytes_offset + size
    > W25Q128FV_FLASH_MEMORY_TOTAL_SIZE_IN_BYTES ->
  w25q128fv_write_flash_memory start_page page_bytes_offset size buf s
    = Run (Done W25Q128FV_EC_ERR) [] s
  /\ w25q128fv_read_flash_memory start_page page_bytes_offset size buf s
     = Run (W25Q128FV_EC_ERR, buf) [] s
  /\ w25q128fv_fast_read_flash_memory start_page page_bytes_offset size buf s
     = Run (W25Q128FV_EC_ERR, buf) [] s.
Proof.
  intros Hp Ho Hs Hfit Hout.
  unfold w25q128fv_write_flash_memory, w25q128fv_read_flash_memory,
    w25q128fv_fast_read_flash_memory, W25Q128FV_PAGE_SIZE_IN_BYTES.
  rewrite (uint32_small (start_page * 256 + page_bytes_offset)) by lia.
  rewrite (uint32_small (start_page * 256 + page_bytes_offset + size)) by lia.
  replace (start_page * 256 + page_bytes_offset + size
           >? W25Q128FV_FLASH_MEMORY_TOTAL_SIZE_IN_BYTES) with true
    by (symmetry; rewrite Z.gtb_ltb; apply Z.ltb_lt; lia).
  repeat split.
Qed.

(** A sector index at or beyond the number of sectors is rejected with
    Error before any event. *)
Lemma erase_sector_rejects sector_number s :
  sector_number >= W25Q128FV_TOTAL_SECTORS ->
  w25q128fv_erase_sector sector_number s = Run W25Q128FV_EC_ERR [] s.
Proof.
  intros H. unfold w25q128fv_erase_sector, W25Q128FV_TOTAL_SECTORS in *.
  replace (sector_number >? W25Q128FV_TOTAL_SECTORS_MINUS_ONE) with true
    by (symmetry; rewrite Z.gtb_ltb; apply Z.ltb_lt;
        unfold W25Q128FV_TOTAL_SECTORS_MINUS_ONE; lia).
  reflexivity.
Qed.

(** C4. The range check is made on 32-bit sums that wrap around: the
    request for one byte at page 16777216 resolves to a range that ends
    beyond the device, yet read, fast read and write all accept it and
    exchange frames with the device at address 0. *)
Theorem range_check_wraps_around :
  let start_page := 16777216 in
  start_page * W25Q128FV_PAGE_SIZE_IN_BYTES + 0 + 1
    > W25Q128FV_FLASH_MEMORY_TOTAL_SIZE_IN_BYTES
  /\ w25q128fv_read_flash_memory start_page 0 1 [0] []
     = Run (W25Q128FV_EC_OK, [0])
           [CS_WritePin GPIO_PIN_RESET; SPI_Transmit [0x03; 0; 0; 0];
            SPI_Receive 1; CS_WritePin GPIO_PIN_SET] []
  /\ w25q128fv_fast_read_flash_memory start_page 0 1 [0] []
     = Run (W25Q128FV_EC_OK, [0])
           [CS_WritePin GPIO_PIN_RESET; SPI_Transmit [0x0B; 0; 0; 0; 0];
            SPI_Receive 1; CS_WritePin GPIO_PIN_SET] []
  /\ value (w25q128fv_write_flash_memory start_page 0 1 [7] [])
     = Done W25Q128FV_EC_OK
  /\ page_programs (trace (w25q128fv_write_flash_memory start_page 0 1 [7] []))
     = [(0, [7])].
Proof. cbv zeta. repeat split. Qed.

(** * Further properties of the driver *)

(** ** Results *)

Lemma reply_code_is_status s : is_status (reply_code s).
Proof.
  unfold is_status, reply_code. destruct (next_reply s) as [[st d] s'].
  destruct st; cbn; auto.
Qed.

Lemma program_chunks_is_status chunks : forall s,
  is_status (value (program_chunks chunks s)).
Proof.
  induction chunks as [|chunk chunks IH]; intros s.
  - left. reflexivity.
  - rewrite program_chunks_step. cbv zeta.
    destruct (reply_code s !=? W25Q128FV_EC_OK);
      [right; right; reflexivity|].
    destruct (reply_code (after_reply s) !=? W25Q128FV_EC_OK);
      [apply reply_code_is_status|].
    destruct (reply_code (after_reply (after_reply s)) !=? W25Q128FV_EC_OK);
      [right; right; reflexivity|].
    apply IH.
Qed.

Ltac status_cases :=
  unfold is_status, W25Q128FV_EC_OK, W25Q128FV_EC_NR, W25Q128FV_EC_ERR;
  cbn [fst snd]; auto.

(** X1. Whatever the transport answers, every operation returns one of the
    three results Ok, NoResponse and Error, and nothing else. *)
Theorem results_are_status_codes :
  (forall s, is_status (value (w25q128fv_software_reset s)))
  /\ (forall s, is_status (value (w25q128fv_read_id s)))
  /\ (forall start_page page_bytes_offset size dst s,
        is_status (fst (value (w25q128fv_read_flash_memory
                                 start_page page_bytes_offset size dst s))))
  /\ (forall start_page page_bytes_offset size dst s,
        is_status (fst (value (w25q128fv_fast_read_flash_memory
                                 start_page page_bytes_offset size dst s))))
  /\ (forall sector_number s,
        is_status (value (w25q128fv_erase_sector sector_number s)))
  /\ (forall s, is_status (value (w25q128fv_chip_erase s)))
  /\ (forall start_page page_bytes_offset size src s,
        typed_request start_page page_bytes_offset size src ->
        exists ret,
          value (w25q128fv_write_flash_memory
                   start_page page_bytes_offset size src s) = Done ret
          /\ is_status ret).
Proof.
  repeat apply conj.
  - intros s. unfold w25q128fv_software_reset. monad_unfold.
    step_reply; status_cases.
  - intros s. unfold w25q128fv_read_id. monad_unfold.
    step_reply; try status_cases. step_reply; try status_cases.
    match goal with
    | |- context [if ?c then _ else _] => destruct c
    end; status_cases.
  - intros start_page page_bytes_offset size dst s.
    unfold w25q128fv_read_flash_memory.
    match goal with
    | |- context [if ?c then _ else _] => destruct c
    end; [status_cases|].
    monad_unfold. step_reply; try status_cases. step_reply; status_cases.
  - intros start_page page_bytes_offset size dst s.
    unfold w25q128fv_fast_read_flash_memory.
    match goal with
    | |- context [if ?c then _ else _] => destruct c
    end; [status_cases|].
    monad_unfold. step_reply; try status_cases. step_reply; status_cases.
  - intros sector_number s. unfold w25q128fv_erase_sector.
    destruct (sector_number >? W25Q128FV_TOTAL_SECTORS_MINUS_ONE);
      [status_cases|].
    unfold send_w25q128fv_write_enable_instruction,
      send_w25q128fv_write_disable_instruction.
    monad_unfold. step_reply; try status_cases.
    step_reply; try status_cases. step_reply; status_cases.
  - intros s. unfold w25q128fv_chip_erase.
    unfold send_w25q128fv_write_enable_instruction,
      send_w25q128fv_write_disable_instruction.
    monad_unfold. step_reply; try status_cases.
    step_reply; try status_cases. step_reply; status_cases.
  - intros start_page page_bytes_offset size src s Ht.
    destruct (write_run_cases _ _ _ _ s Ht) as [E|[E|(chunks & E)]];
      rewrite E; eexists; (split; [reflexivity|]).
    + right. right. reflexivity.
    + left. reflexivity.
    + apply program_chunks_is_status.
Qed.

Lemma results_are_status_codes_witness :
  exists ret,
    value (w25q128fv_write_flash_memory 0 250 300 (replicate 300 0)
             [Reply HAL_OK []; Reply HAL_TIMEOUT []]) = Done ret
    /\ is_status ret.
Proof.
  assert (Ht : typed_request 0 250 300 (replicate 300 0))
    by (unfold typed_request; vm_compute; repeat split; discriminate).
  exact (proj2 (proj2 (proj2 (proj2 (proj2 (proj2 results_are_status_codes)))))
           0 250 300 _ _ Ht).
Defined.

(** ** Reading *)

Lemma read_flash_memory_run start_page page_bytes_offset size dst s :
  w25q128fv_read_flash_memory start_page page_bytes_offset size dst s
  = let addr := uint32 (start_page * W25Q128FV_PAGE_SIZE_IN_BYTES
                        + page_bytes_offset) in
    let frame := [W25Q128FV_READ_DATA_INSTRUCTION;
                  uint8 (Z.shiftr addr 16); uint8 (Z.shiftr addr 8);
                  uint8 addr] in
    if uint32 (addr + size) >? W25Q128FV_FLASH_MEMORY_TOTAL_SIZE_IN_BYTES
    then Run (W25Q128FV_EC_ERR, dst) [] s
    else if reply_code s !=? W25Q128FV_EC_OK
    then Run (reply_code s, dst) (exchange frame) (after_reply s)
    else
      let s1 := after_reply s in
      let got := take (Z.to_nat (uint16 size)) (rx (fst (next_reply s1))) in
      Run (reply_code s1, got ++ drop (length got) dst)
          [CS_WritePin GPIO_PIN_RESET; SPI_Transmit frame;
           SPI_Receive (uint16 size); CS_WritePin GPIO_PIN_SET]
          (after_reply s1).
Proof.
  unfold w25q128fv_read_flash_memory. cbv zeta.
  match goal with
  | |- context [if ?c then _ else _] => destruct c
  end; [reflexivity|].
  unfold reply_code, after_reply. monad_unfold.
  change (Z.to_nat (uint16 4)) with 4%nat. cbn [take].
  destruct (next_reply s) as [r1 s1]. cbn [fst snd].
  destruct (HAL_ret_handler (HAL_code (status r1)) !=? W25Q128FV_EC_OK);
    [reflexivity|].
  destruct (next_reply s1) as [r2 s2]. cbn [fst snd app].
  destruct (HAL_ret_handler (HAL_code (status r2)) !=? W25Q128FV_EC_OK) eqn:E;
    [reflexivity|].
  apply negb_false_iff, Z.eqb_eq in E. rewrite E. reflexivity.
Qed.

Lemma fast_read_flash_memory_run start_page page_bytes_offset size dst s :
  w25q128fv_fast_read_flash_memory start_page page_bytes_offset size dst s
  = let addr := uint32 (start_page * W25Q128FV_PAGE_SIZE_IN_BYTES
                        + page_bytes_offset) in
    let frame := [W25Q128FV_FAST_READ_INSTRUCTION;
                  uint8 (Z.shiftr addr 16); uint8 (Z.shiftr addr 8);
                  uint8 addr; 0x00] in
    if uint32 (addr + size) >? W25Q128FV_FLASH_MEMORY_TOTAL_SIZE_IN_BYTES
    then Run (W25Q128FV_EC_ERR, dst) [] s
    else if reply_code s !=? W25Q128FV_EC_OK
    then Run (reply_code s, dst) (exchange frame) (after_reply s)
    else
      let s1 := after_reply s in
      let got := take (Z.to_nat (uint16 size)) (rx (fst (next_reply s1))) in
      Run (reply_code s1, got ++ drop (length got) dst)
          [CS_WritePin GPIO_PIN_RESET; SPI_Transmit frame;
           SPI_Receive (uint16 size); CS_WritePin GPIO_PIN_SET]
          (after_reply s1).
Proof.
  unfold w25q128fv_fast_read_flash_memory. cbv zeta.
  match goal with
  | |- context [if ?c then _ else _] => destruct c
  end; [reflexivity|].
  unfold reply_code, after_reply. monad_unfold.
  change (Z.to_nat (uint16 5)) with 5%nat. cbn [take].
  destruct (next_reply s) as [r1 s1]. cbn [fst snd].
  destruct (HAL_ret_handler (HAL_code (status r1)) !=? W25Q128FV_EC_OK);
    [reflexivity|].
  destruct (next_reply s1) as [r2 s2]. cbn [fst snd app].
  destruct (HAL_ret_handler (HAL_code (status r2)) !=? W25Q128FV_EC_OK) eqn:E;
    [reflexivity|].
  apply negb_false_iff, Z.eqb_eq in E. rewrite E. reflexivity.
Qed.

Lemma address_bytes_are_bytes a :
  is_byte (uint8 (Z.shiftr a 16)) /\ is_byte (uint8 (Z.shiftr a 8))
  /\ is_byte (uint8 a).
Proof.
  unfold is_byte, uint8. change (2 ^ 8) with 256.
  repeat split; apply Z.mod_pos_bound; lia.
Qed.

(** X2. For a read or fast-read request within the device, the only frame
    transmitted is the opcode followed by the three bytes of the start
    address, most significant first (and, for the fast read, one dummy
    byte 0): decoding the address bytes gives back page * 256 + offset. *)
Theorem read_frames_carry_the_address
    start_page page_bytes_offset size dst s :
  0 <= start_page -> 0 <= page_bytes_offset < 256 -> 0 <= size ->
  start_page * W25Q128FV_PAGE_SIZE_IN_BYTES + page_bytes_offset + size
    <= W25Q128FV_FLASH_MEMORY_TOTAL_SIZE_IN_BYTES ->
  exists b2 b1 b0,
    is_byte b2 /\ is_byte b1 /\ is_byte b0
    /\ b2 * 65536 + b1 * 256 + b0
       = start_page * W25Q128FV_PAGE_SIZE_IN_BYTES + page_bytes_offset
    /\ transmitted (trace (w25q128fv_read_flash_memory
                             start_page page_bytes_offset size dst s))
       = [[W25Q128FV_READ_DATA_INSTRUCTION; b2; b1; b0]]
    /\ transmitted (trace (w25q128fv_fast_read_flash_memory
                             start_page page_bytes_offset size dst s))
       = [[W25Q128FV_FAST_READ_INSTRUCTION; b2; b1; b0; 0x00]].
Proof.
  intros Hp Ho Hs Hend.
  unfold W25Q128FV_PAGE_SIZE_IN_BYTES,
    W25Q128FV_FLASH_MEMORY_TOTAL_SIZE_IN_BYTES in *.
  set (a := start_page * 256 + page_bytes_offset) in *.
  assert (Ha : uint32 a = a)
    by (apply uint32_small; change (2 ^ 32) with 4294967296; lia).
  assert (Hacc : (uint32 (a + size) >? 16731136) = false).
  { rewrite uint32_small by (change (2 ^ 32) with 4294967296; lia).
    rewrite Z.gtb_ltb. apply Z.ltb_ge. lia. }
  destruct (address_bytes_are_bytes a) as (B2 & B1 & B0).
  exists (uint8 (Z.shiftr a 16)), (uint8 (Z.shiftr a 8)), (uint8 a).
  split; [exact B2|]. split; [exact B1|]. split; [exact B0|].
  split; [apply address_bytes_decode; change (2 ^ 24) with 16777216; lia|].
  rewrite read_flash_memory_run, fast_read_flash_memory_run. cbv zeta.
  unfold W25Q128FV_PAGE_SIZE_IN_BYTES,
    W25Q128FV_FLASH_MEMORY_TOTAL_SIZE_IN_BYTES.
  fold a. rewrite Ha, Hacc.
  destruct (reply_code s !=? W25Q128FV_EC_OK); split; reflexivity.
Qed.

Lemma read_frames_carry_the_address_witness :
  exists b2 b1 b0,
    is_byte b2 /\ is_byte b1 /\ is_byte b0
    /\ b2 * 65536 + b1 * 256 + b0 = 4660 * W25Q128FV_PAGE_SIZE_IN_BYTES + 86
    /\ transmitted (trace (w25q128fv_read_flash_memory 4660 86 16 [] []))
       = [[W25Q128FV_READ_DATA_INSTRUCTION; b2; b1; b0]]
    /\ transmitted (trace (w25q128fv_fast_read_flash_memory 4660 86 16 [] []))
       = [[W25Q128FV_FAST_READ_INSTRUCTION; b2; b1; b0; 0x00]].
Proof.
  assert (Hend : 4660 * W25Q128FV_PAGE_SIZE_IN_BYTES + 86 + 16
                 <= W25Q128FV_FLASH_MEMORY_TOTAL_SIZE_IN_BYTES)
    by (vm_compute; discriminate).
  exact (read_frames_carry_the_address 4660 86 16 [] []
           ltac:(lia) ltac:(lia) ltac:(lia) Hend).
Defined.

(** X3. A read or fast read whose range check passes makes its receive only
    after the instruction was transmitted with success: when that transmit
    fails the result is the mapped failure, no receive is made and the
    destination buffer is returned as it was; when it succeeds there is
    exactly one receive, of [size] bytes, and the result is the mapped
    outcome of that receive. *)
Theorem read_receives_only_after_instruction
    start_page page_bytes_offset size dst r1 r2 tl :
  range_accepted start_page page_bytes_offset size ->
  0 <= size < 2 ^ 16 ->
  (status r1 <> HAL_OK ->
   let failure := HAL_ret_handler (HAL_code (status r1)) in
   let r := w25q128fv_read_flash_memory
              start_page page_bytes_offset size dst (r1 :: tl) in
   let f := w25q128fv_fast_read_flash_memory
              start_page page_bytes_offset size dst (r1 :: tl) in
   value r = (failure, dst) /\ received (trace r) = [] /\ rest r = tl
   /\ value f = (failure, dst) /\ received (trace f) = [] /\ rest f = tl)
  /\ (status r1 = HAL_OK ->
      let outcome := HAL_ret_handler (HAL_code (status r2)) in
      let r := w25q128fv_read_flash_memory
                 start_page page_bytes_offset size dst (r1 :: r2 :: tl) in
      let f := w25q128fv_fast_read_flash_memory
                 start_page page_bytes_offset size dst (r1 :: r2 :: tl) in
      fst (value r) = outcome /\ received (trace r) = [size] /\ rest r = tl
      /\ fst (value f) = outcome /\ received (trace f) = [size] /\ rest f = tl).
Proof.
  intros Hacc Hs.
  assert (Hcheck : (uint32 (uint32 (start_page * W25Q128FV_PAGE_SIZE_IN_BYTES
                                    + page_bytes_offset) + size)
                    >? W25Q128FV_FLASH_MEMORY_TOTAL_SIZE_IN_BYTES) = false)
    by (rewrite Z.gtb_ltb; apply Z.ltb_ge; exact Hacc).
  assert (Hsize : uint16 size = size) by (apply uint16_small; exact Hs).
  split.
  - intros Hbad. cbv zeta.
    rewrite read_flash_memory_run, fast_read_flash_memory_run. cbv zeta.
    rewrite Hcheck.
    destruct (reply_code_failed r1 tl Hbad) as (Fc & Fb & Fr).
    rewrite Fb, Fc, Fr. repeat split.
  - intros Hok. cbv zeta.
    rewrite read_flash_memory_run, fast_read_flash_memory_run. cbv zeta.
    rewrite Hcheck.
    assert (E1 : reply_code (r1 :: r2 :: tl) = W25Q128FV_EC_OK)
      by (unfold reply_code; cbn; rewrite Hok; reflexivity).
    rewrite E1. cbn [Z_neqb Z.eqb W25Q128FV_EC_OK negb].
    rewrite Hsize. repeat split.
Qed.

Lemma read_receives_only_after_instruction_witness :
  value (w25q128fv_read_flash_memory 2 0 4 [9; 9; 9; 9]
           [Reply HAL_BUSY []; Reply HAL_OK [1; 2; 3; 4]])
  = (W25Q128FV_EC_NR, [9; 9; 9; 9]).
Proof.
  assert (Hacc : range_accepted 2 0 4) by (vm_compute; discriminate).
  assert (Hbad : status (Reply HAL_BUSY []) <> HAL_OK) by discriminate.
  exact (proj1 (proj1 (read_receives_only_after_instruction 2 0 4 [9; 9; 9; 9]
                         (Reply HAL_BUSY []) (Reply HAL_OK [])
                         [Reply HAL_OK [1; 2; 3; 4]]
                         Hacc ltac:(lia)) Hbad)).
Defined.

(** X4. For the same request and the same transport answers, the fast read
    returns the same result, the same destination contents and leaves the
    same replies unconsumed as the plain read; the two traces differ in the
    transmitted frame only. *)
Theorem fast_read_agrees_with_read start_page page_bytes_offset size dst s :
  let r := w25q128fv_read_flash_memory
             start_page page_bytes_offset size dst s in
  let f := w25q128fv_fast_read_flash_memory
             start_page page_bytes_offset size dst s in
  value f = value r /\ rest f = rest r
  /\ without_transmits (trace f) = without_transmits (trace r)
  /\ length (transmitted (trace f)) = length (transmitted (trace r)).
Proof.
  cbv zeta. rewrite read_flash_memory_run, fast_read_flash_memory_run.
  cbv zeta.
  match goal with
  | |- context [if ?c then _ else _] => destruct c
  end; [repeat split|].
  destruct (reply_code s !=? W25Q128FV_EC_OK); repeat split.
Qed.

(** X5. The reading operations transmit nothing but their own instruction:
    every frame sent by a read starts with the read opcode, by a fast read
    with the fast-read opcode, by the identification with the JEDEC-id
    opcode, so none of them ever sends a write-enable, a page program or an
    erase. *)
Theorem reads_transmit_their_opcode_only :
  (forall start_page page_bytes_offset size dst s,
      Forall (fun frame => head frame = Some W25Q128FV_READ_DATA_INSTRUCTION)
        (transmitted (trace (w25q128fv_read_flash_memory
                               start_page page_bytes_offset size dst s))))
  /\ (forall start_page page_bytes_offset size dst s,
        Forall (fun frame => head frame = Some W25Q128FV_FAST_READ_INSTRUCTION)
          (transmitted (trace (w25q128fv_fast_read_flash_memory
                                 start_page page_bytes_offset size dst s))))
  /\ (forall s,
        Forall (fun frame => head frame = Some W25Q128FV_READ_JEDEC_ID_INSTRUCTION)
          (transmitted (trace (w25q128fv_read_id s)))).
Proof.
  repeat apply conj.
  - intros. rewrite read_flash_memory_run. cbv zeta.
    match goal with
    | |- context [if ?c then _ else _] => destruct c
    end; [constructor|].
    destruct (reply_code s !=? W25Q128FV_EC_OK); repeat constructor.
  - intros. rewrite fast_read_flash_memory_run. cbv zeta.
    match goal with
    | |- context [if ?c then _ else _] => destruct c
    end; [constructor|].
    destruct (reply_code s !=? W25Q128FV_EC_OK); repeat constructor.
  - intros s. unfold w25q128fv_read_id. monad_unfold.
    step_reply; try (repeat constructor).
    step_reply; try (repeat constructor).
    match goal with
    | |- context [if ?c then _ else _] => destruct c
    end; repeat constructor.
Qed.

(** ** Erasing *)

Lemma HAL_SPI_Transmit_run data size s :
  HAL_SPI_Transmit data size s
  = Run (HAL_code (status (fst (next_reply s))))
        [SPI_Transmit (take (Z.to_nat (uint16 size)) data)] (after_reply s).
Proof.
  unfold HAL_SPI_Transmit, after_reply. destruct (next_reply s); reflexivity.
Qed.

Lemma erase_sector_run sector_number s :
  w25q128fv_erase_sector sector_number s
  = let addr := uint32 (sector_number * W25Q128FV_SECTOR_SIZE_IN_BYTES) in
    let frame := [W25Q128FV_SECTOR_ERASE_INSTRUCTION;
                  uint8 (Z.shiftr addr 16); uint8 (Z.shiftr addr 8);
                  uint8 addr] in
    let s1 := after_reply s in
    let s2 := after_reply s1 in
    let s3 := after_reply s2 in
    if sector_number >? W25Q128FV_TOTAL_SECTORS_MINUS_ONE
    then Run W25Q128FV_EC_ERR [] s
    else if reply_code s !=? W25Q128FV_EC_OK then
      Run W25Q128FV_EC_ERR (exchange [W25Q128FV_WRITE_ENABLE_INSTRUCTION]) s1
    else if reply_code s1 !=? W25Q128FV_EC_OK then
      Run (reply_code s1)
          (exchange [W25Q128FV_WRITE_ENABLE_INSTRUCTION] ++ exchange frame) s2
    else
      Run (if reply_code s2 !=? W25Q128FV_EC_OK
           then W25Q128FV_EC_ERR else W25Q128FV_EC_OK)
          (exchange [W25Q128FV_WRITE_ENABLE_INSTRUCTION] ++ exchange frame
             ++ Delay 400 :: exchange [W25Q128FV_WRITE_DISABLE_INSTRUCTION])
          s3.
Proof.
  unfold w25q128fv_erase_sector. cbv zeta.
  destruct (sector_number >? W25Q128FV_TOTAL_SECTORS_MINUS_ONE);
    [reflexivity|].
  rewrite (bind_Run _ _ s _ _ _ (write_enable_run s)).
  destruct (reply_code s !=? W25Q128FV_EC_OK); [reflexivity|].
  set (s1 := after_reply s).
  rewrite (bind_Run _ _ s1 tt [CS_WritePin GPIO_PIN_RESET] s1 eq_refl).
  rewrite (bind_Run _ _ _ _ _ _ (HAL_SPI_Transmit_run _ 4 s1)).
  change (Z.to_nat (uint16 4)) with 4%nat. cbn [take].
  set (s2 := after_reply s1).
  rewrite (bind_Run _ _ s2 tt [CS_WritePin GPIO_PIN_SET] s2 eq_refl).
  fold (reply_code s1).
  destruct (reply_code s1 !=? W25Q128FV_EC_OK); [reflexivity|].
  rewrite (bind_Run _ _ s2 tt [Delay 400] s2 eq_refl).
  rewrite (bind_Run _ _ _ _ _ _ (write_disable_run s2)).
  destruct (reply_code s2 !=? W25Q128FV_EC_OK); reflexivity.
Qed.

Lemma chip_erase_run s :
  w25q128fv_chip_erase s
  = let s1 := after_reply s in
    let s2 := after_reply s1 in
    let s3 := after_reply s2 in
    if reply_code s !=? W25Q128FV_EC_OK then
      Run W25Q128FV_EC_ERR (exchange [W25Q128FV_WRITE_ENABLE_INSTRUCTION]) s1
    else if reply_code s1 !=? W25Q128FV_EC_OK then
      Run (reply_code s1)
          (exchange [W25Q128FV_WRITE_ENABLE_INSTRUCTION]
             ++ exchange [W25Q128FV_CHIP_ERASE_INSTRUCTION]) s2
    else
      Run (if reply_code s2 !=? W25Q128FV_EC_OK
           then W25Q128FV_EC_ERR else W25Q128FV_EC_OK)
          (exchange [W25Q128FV_WRITE_ENABLE_INSTRUCTION]
             ++ exchange [W25Q128FV_CHIP_ERASE_INSTRUCTION]
             ++ Delay 200000 :: exchange [W25Q128FV_WRITE_DISABLE_INSTRUCTION])
          s3.
Proof.
  unfold w25q128fv_chip_erase. cbv zeta.
  rewrite (bind_Run _ _ s _ _ _ (write_enable_run s)).
  destruct (reply_code s !=? W25Q128FV_EC_OK); [reflexivity|].
  set (s1 := after_reply s).
  rewrite (bind_Run _ _ s1 tt [CS_WritePin GPIO_PIN_RESET] s1 eq_refl).
  rewrite (bind_Run _ _ _ _ _ _ (HAL_SPI_Transmit_run _ 1 s1)).
  change (Z.to_nat (uint16 1)) with 1%nat. cbn [take].
  set (s2 := after_reply s1).
  rewrite (bind_Run _ _ s2 tt [CS_WritePin GPIO_PIN_SET] s2 eq_refl).
  fold (reply_code s1).
  destruct (reply_code s1 !=? W25Q128FV_EC_OK); [reflexivity|].
  rewrite (bind_Run _ _ s2 tt [Delay 200000] s2 eq_refl).
  rewrite (bind_Run _ _ _ _ _ _ (write_disable_run s2)).
  destruct (reply_code s2 !=? W25Q128FV_EC_OK); reflexivity.
Qed.

Lemma sector_accepted sector_number :
  0 <= sector_number <= W25Q128FV_TOTAL_SECTORS_MINUS_ONE ->
  (sector_number >? W25Q128FV_TOTAL_SECTORS_MINUS_ONE) = false
  /\ uint32 (sector_number * W25Q128FV_SECTOR_SIZE_IN_BYTES)
     = sector_number * W25Q128FV_SECTOR_SIZE_IN_BYTES
  /\ 0 <= sector_number * W25Q128FV_SECTOR_SIZE_IN_BYTES
     < W25Q128FV_FLASH_MEMORY_TOTAL_SIZE_IN_BYTES.
Proof.
  unfold W25Q128FV_TOTAL_SECTORS_MINUS_ONE, W25Q128FV_SECTOR_SIZE_IN_BYTES,
    W25Q128FV_FLASH_MEMORY_TOTAL_SIZE_IN_BYTES.
  intros H. split; [rewrite Z.gtb_ltb; apply Z.ltb_ge; lia|].
  split; [apply uint32_small; change (2 ^ 32) with 4294967296; lia|lia].
Qed.

(** X6. For an existing sector and a transport that succeeds, the sector
    erase returns Ok after exactly this sequence: write-enable, the erase
    frame, a wait of 400 ms, write-disable, each frame in its own
    chip-select bracket.  The erase frame carries, most significant byte
    first, the address sector * 4096, which lies inside the device. *)
Theorem erase_sector_sequence sector_number s :
  0 <= sector_number <= W25Q128FV_TOTAL_SECTORS_MINUS_ONE -> all_ok s ->
  let r := w25q128fv_erase_sector sector_number s in
  exists b2 b1 b0,
    is_byte b2 /\ is_byte b1 /\ is_byte b0
    /\ b2 * 65536 + b1 * 256 + b0
       = sector_number * W25Q128FV_SECTOR_SIZE_IN_BYTES
    /\ sector_number * W25Q128FV_SECTOR_SIZE_IN_BYTES
       < W25Q128FV_FLASH_MEMORY_TOTAL_SIZE_IN_BYTES
    /\ value r = W25Q128FV_EC_OK
    /\ trace r
       = exchange [W25Q128FV_WRITE_ENABLE_INSTRUCTION]
           ++ exchange [W25Q128FV_SECTOR_ERASE_INSTRUCTION; b2; b1; b0]
           ++ Delay 400 :: exchange [W25Q128FV_WRITE_DISABLE_INSTRUCTION].
Proof.
  intros Hn Hs r. unfold r.
  destruct (sector_accepted _ Hn) as (Hacc & Ha & Hin).
  destruct (reply_code_ok s Hs) as (E1 & Hs1).
  destruct (reply_code_ok _ Hs1) as (E2 & Hs2).
  destruct (reply_code_ok _ Hs2) as (E3 & _).
  set (a := sector_number * W25Q128FV_SECTOR_SIZE_IN_BYTES) in *.
  destruct (address_bytes_are_bytes a) as (B2 & B1 & B0).
  exists (uint8 (Z.shiftr a 16)), (uint8 (Z.shiftr a 8)), (uint8 a).
  split; [exact B2|]. split; [exact B1|]. split; [exact B0|].
  split.
  { apply address_bytes_decode.
    unfold W25Q128FV_FLASH_MEMORY_TOTAL_SIZE_IN_BYTES in Hin.
    change (2 ^ 24) with 16777216. lia. }
  split; [apply Hin|].
  rewrite erase_sector_run. cbv zeta. fold a.
  rewrite Hacc, Ha, E1, E2, E3. split; reflexivity.
Qed.

Lemma erase_sector_sequence_witness :
  exists b2 b1 b0,
    is_byte b2 /\ is_byte b1 /\ is_byte b0
    /\ b2 * 65536 + b1 * 256 + b0 = 4084 * W25Q128FV_SECTOR_SIZE_IN_BYTES
    /\ 4084 * W25Q128FV_SECTOR_SIZE_IN_BYTES
       < W25Q128FV_FLASH_MEMORY_TOTAL_SIZE_IN_BYTES
    /\ value (w25q128fv_erase_sector 4084 []) = W25Q128FV_EC_OK
    /\ trace (w25q128fv_erase_sector 4084 [])
       = exchange [W25Q128FV_WRITE_ENABLE_INSTRUCTION]
           ++ exchange [W25Q128FV_SECTOR_ERASE_INSTRUCTION; b2; b1; b0]
           ++ Delay 400 :: exchange [W25Q128FV_WRITE_DISABLE_INSTRUCTION].
Proof.
  assert (Hn : 0 <= 4084 <= W25Q128FV_TOTAL_SECTORS_MINUS_ONE)
    by (vm_compute; split; discriminate).
  assert (Hs : all_ok []) by constructor.
  exact (erase_sector_sequence 4084 [] Hn Hs).
Defined.

(** X7. A sector erase or a chip erase stops at the first transport call
    that does not succeed and makes no further call: a failed write-enable
    or write-disable gives Error, a failed erase frame gives its own mapped
    result.  The wait for the erase to complete takes place only when the
    erase frame was transmitted with success, and after a failed erase
    frame no write-disable is sent. *)
Theorem erase_aborts_on_first_failure sector_number oks bad tl :
  0 <= sector_number <= W25Q128FV_TOTAL_SECTORS_MINUS_ONE ->
  all_ok oks -> status bad <> HAL_OK -> (length oks < 3)%nat ->
  let result := if (length oks =? 1)%nat
                then HAL_ret_handler (HAL_code (status bad))
                else W25Q128FV_EC_ERR in
  let r := w25q128fv_erase_sector sector_number (oks ++ bad :: tl) in
  let c := w25q128fv_chip_erase (oks ++ bad :: tl) in
  (value r = result /\ rest r = tl /\ spi_calls (trace r) = S (length oks)
   /\ delays (trace r) = if (length oks =? 2)%nat then [400] else [])
  /\ (value c = result /\ rest c = tl /\ spi_calls (trace c) = S (length oks)
      /\ delays (trace c) = if (length oks =? 2)%nat then [200000] else []).
Proof.
  intros Hn Hoks Hbad Hlen. cbv zeta.
  destruct (sector_accepted _ Hn) as (Hacc & _ & _).
  rewrite erase_sector_run, chip_erase_run. cbv zeta. rewrite Hacc.
  destruct (reply_code_failed bad tl Hbad) as (Fc & Fb & Fr).
  destruct oks as [|o1 oks].
  { cbn [app length Nat.eqb]. rewrite Fb, Fr. repeat split. }
  inversion Hoks as [|? ? Ho1 Hoks1]; subst.
  assert (E1 : reply_code ((o1 :: oks) ++ bad :: tl) = W25Q128FV_EC_OK)
    by (unfold reply_code; cbn; rewrite Ho1; reflexivity).
  assert (A1 : after_reply ((o1 :: oks) ++ bad :: tl) = oks ++ bad :: tl)
    by reflexivity.
  rewrite E1, A1. cbn [Z_neqb Z.eqb W25Q128FV_EC_OK negb].
  destruct oks as [|o2 oks].
  { cbn [app length Nat.eqb]. rewrite Fb, Fr, Fc. repeat split. }
  inversion Hoks1 as [|? ? Ho2 Hoks2]; subst.
  assert (E2 : reply_code ((o2 :: oks) ++ bad :: tl) = W25Q128FV_EC_OK)
    by (unfold reply_code; cbn; rewrite Ho2; reflexivity).
  assert (A2 : after_reply ((o2 :: oks) ++ bad :: tl) = oks ++ bad :: tl)
    by reflexivity.
  rewrite E2, A2. cbn [Z_neqb Z.eqb W25Q128FV_EC_OK negb].
  destruct oks as [|o3 oks]; [|cbn [length] in Hlen; lia].
  cbn [app length Nat.eqb]. rewrite Fb, Fr. repeat split.
Qed.

Lemma erase_aborts_on_first_failure_witness :
  value (w25q128fv_erase_sector 7
           [Reply HAL_OK []; Reply HAL_TIMEOUT []; Reply HAL_OK []])
  = W25Q128FV_EC_NR.
Proof.
  assert (Hn : 0 <= 7 <= W25Q128FV_TOTAL_SECTORS_MINUS_ONE)
    by (vm_compute; split; discriminate).
  assert (Hoks : all_ok [Reply HAL_OK []]) by (repeat constructor).
  assert (Hbad : status (Reply HAL_TIMEOUT []) <> HAL_OK) by discriminate.
  assert (Hlen : (length [Reply HAL_OK []] < 3)%nat) by (cbn; lia).
  exact (proj1 (proj1 (erase_aborts_on_first_failure 7 [Reply HAL_OK []]
                         (Reply HAL_TIMEOUT []) [Reply HAL_OK []]
                         Hn Hoks Hbad Hlen))).
Defined.

(** X8. Erasing the same existing sector twice in a row with a transport
    that succeeds gives Ok both times; the second erase sends exactly what
    the first one sent. *)
Theorem erase_sector_twice sector_number s :
  0 <= sector_number <= W25Q128FV_TOTAL_SECTORS_MINUS_ONE -> all_ok s ->
  let twice :=
    (first <- w25q128fv_erase_sector sector_number ;;
     second <- w25q128fv_erase_sector sector_number ;;
     Ret (first, second)) s in
  let once := w25q128fv_erase_sector sector_number s in
  value twice = (W25Q128FV_EC_OK, W25Q128FV_EC_OK)
  /\ trace twice = trace once ++ trace once.
Proof.
  intros Hn Hs. cbv zeta.
  destruct (sector_accepted _ Hn) as (Hacc & _ & _).
  destruct (reply_code_ok s Hs) as (E1 & Hs1).
  destruct (reply_code_ok _ Hs1) as (E2 & Hs2).
  destruct (reply_code_ok _ Hs2) as (E3 & Hs3).
  destruct (reply_code_ok _ Hs3) as (E4 & Hs4).
  destruct (reply_code_ok _ Hs4) as (E5 & Hs5).
  destruct (reply_code_ok _ Hs5) as (E6 & _).
  unfold bind, Ret. rewrite !erase_sector_run. cbv zeta.
  rewrite Hacc, E1, E2, E3. cbn [Z_neqb Z.eqb W25Q128FV_EC_OK negb value trace rest].
  rewrite E4, E5, E6. cbn [Z_neqb Z.eqb W25Q128FV_EC_OK negb value trace rest].
  rewrite app_nil_r. split; reflexivity.
Qed.

Lemma erase_sector_twice_witness :
  value ((first <- w25q128fv_erase_sector 12 ;;
          second <- w25q128fv_erase_sector 12 ;;
          Ret (first, second)) [])
  = (W25Q128FV_EC_OK, W25Q128FV_EC_OK).
Proof.
  assert (Hn : 0 <= 12 <= W25Q128FV_TOTAL_SECTORS_MINUS_ONE)
    by (vm_compute; split; discriminate).
  assert (Hs : all_ok []) by constructor.
  exact (proj1 (erase_sector_twice 12 [] Hn Hs)).
Defined.

(** ** Writing *)

Lemma program_chunks_trace_ok chunks : forall s,
  all_ok s ->
  trace (program_chunks chunks s) = concat (map chunk_events chunks).
Proof.
  induction chunks as [|chunk chunks IH]; intros s Hs; [reflexivity|].
  rewrite program_chunks_step. cbv zeta.
  destruct (reply_code_ok s Hs) as (E1 & Hs1).
  destruct (reply_code_ok _ Hs1) as (E2 & Hs2).
  destruct (reply_code_ok _ Hs2) as (E3 & Hs3).
  rewrite E1, E2, E3. cbn [Z_neqb Z.eqb W25Q128FV_EC_OK negb trace map concat].
  rewrite (IH _ Hs3). reflexivity.
Qed.

(** X9. For a validated write request and a transport that succeeds, the
    trace consists of nothing but one group per page program, in order:
    write-enable, the page-program frame, a wait of 3 ms, write-disable,
    each frame in its own chip-select bracket. *)
Theorem write_brackets_each_page_program
    start_page page_bytes_offset size src s :
  valid_request start_page page_bytes_offset size src -> all_ok s ->
  let r := w25q128fv_write_flash_memory start_page page_bytes_offset size src s in
  trace r = concat (map chunk_events (page_programs (trace r))).
Proof.
  intros Hv Hs r. unfold r. rewrite valid_write_run by exact Hv.
  pose proof (chunks_of_spec _ _ _ _ Hv) as Hspec. cbv zeta in Hspec.
  destruct Hspec as (_ & _ & _ & B).
  unfold finished. cbn [trace].
  rewrite (proj2 (program_chunks_all_ok
                    (chunks_of start_page page_bytes_offset size src) s Hs B)).
  apply program_chunks_trace_ok. exact Hs.
Qed.

Lemma write_brackets_each_page_program_witness :
  let r := w25q128fv_write_flash_memory 0 250 300 (replicate 300 0) [] in
  trace r = concat (map chunk_events (page_programs (trace r))).
Proof.
  assert (Hv : valid_request 0 250 300 (replicate 300 0))
    by (unfold valid_request; vm_compute; repeat split; discriminate).
  assert (Hs : all_ok []) by constructor.
  exact (write_brackets_each_page_program 0 250 300 _ [] Hv Hs).
Defined.

Lemma contiguous_programmed subs : forall a e,
  contiguous a subs e ->
  concat (map (fun p => zip (seqZ (fst p) (Z.of_nat (length (snd p)))) (snd p))
              subs)
  = zip (seqZ a (Z.of_nat (length (concat (map snd subs)))))
        (concat (map snd subs)).
Proof.
  induction subs as [|p subs IH]; intros a e H; cbn [contiguous] in H.
  - reflexivity.
  - destruct H as (Hp & _ & H). cbn [map concat].
    rewrite (IH _ _ H). rewrite length_app, Nat2Z.inj_add.
    rewrite seqZ_app by lia.
    rewrite zip_with_app by (rewrite length_seqZ; lia).
    unfold sub_end. rewrite Hp. reflexivity.
Qed.

Lemma contiguous_take subs : forall a e (k : nat),
  contiguous a subs e -> exists e', contiguous a (take k subs) e'.
Proof.
  induction subs as [|p subs IH]; intros a e k H.
  - exists a. destruct k; reflexivity.
  - destruct k as [|k]; [exists a; reflexivity|].
    cbn [contiguous] in H. destruct H as (Hp & Hne & H).
    destruct (IH _ _ k H) as (e' & H').
    exists e'. cbn [take contiguous]. repeat split; assumption.
Qed.

Lemma payloads_take (subs : list (Z * list Z)) (k : nat) :
  concat (map snd (take k subs))
  = take (length (concat (map snd (take k subs)))) (concat (map snd subs)).
Proof.
  rewrite <- (take_drop k subs) at 3.
  rewrite map_app, concat_app, take_app_length. reflexivity.
Qed.

(** X10. For a validated write request, whatever the transport answers and
    wherever the write stops, the bytes handed over for programming are a
    leading part of the source buffer, each at its own address counted
    from the start address: nothing outside the requested range is
    programmed and no byte goes to another address.  With a transport that
    succeeds the leading part is the whole of the data. *)
Theorem write_programs_a_prefix start_page page_bytes_offset size src s :
  valid_request start_page page_bytes_offset size src ->
  let addr_start := start_page * W25Q128FV_PAGE_SIZE_IN_BYTES + page_bytes_offset in
  let r := w25q128fv_write_flash_memory start_page page_bytes_offset size src s in
  let sent := concat (map snd (page_programs (trace r))) in
  sent = take (length sent) src
  /\ Z.of_nat (length sent) <= size
  /\ programmed_bytes (trace r)
     = zip (seqZ addr_start (Z.of_nat (length sent))) sent
  /\ (all_ok s -> sent = take (Z.to_nat size) src).
Proof.
  intros Hv addr_start r sent.
  pose proof (chunks_of_spec _ _ _ _ Hv) as Hspec. cbv zeta in Hspec.
  destruct Hspec as (C & K & _ & B).
  set (chunks := chunks_of start_page page_bytes_offset size src) in *.
  destruct (program_chunks_prefix chunks s B) as (k & Hk).
  assert (Hprog : page_programs (trace r) = take k chunks).
  { unfold r. rewrite valid_write_run by exact Hv. exact Hk. }
  assert (Hsent : sent = take (length sent) (take (Z.to_nat size) src)).
  { unfold sent. rewrite Hprog, <- K. apply payloads_take. }
  assert (Hlen : Z.of_nat (length sent) <= size).
  { destruct Hv as (_ & _ & Hs & _).
    rewrite Hsent, !length_take. lia. }
  split; [|split; [exact Hlen|split]].
  - rewrite Hsent at 1. rewrite take_take. f_equal. lia.
  - unfold programmed_bytes. fold sent. unfold sent. rewrite Hprog.
    destruct (contiguous_take _ _ _ k C) as (e' & C').
    apply (contiguous_programmed _ _ _ C').
  - intros Hs. unfold sent, r. rewrite valid_write_run by exact Hv.
    unfold finished. cbn [trace]. fold chunks.
    rewrite (proj2 (program_chunks_all_ok chunks s Hs B)). exact K.
Qed.

Lemma write_programs_a_prefix_witness :
  Z.of_nat
    (length
       (concat (map snd
          (page_programs
             (trace (w25q128fv_write_flash_memory 1 254 4 [10; 11; 12; 13]
                       [Reply HAL_OK []; Reply HAL_OK []; Reply HAL_OK [];
                        Reply HAL_OK []; Reply HAL_OK []; Reply HAL_ERROR []]))))))
  <= 4.
Proof.
  assert (Hv : valid_request 1 254 4 [10; 11; 12; 13])
    by (unfold valid_request; vm_compute; repeat split; discriminate).
  exact (proj1 (proj2 (write_programs_a_prefix 1 254 4 _ _ Hv))).
Defined.

Lemma page_number_wraps start_page page_bytes_offset :
  uint32 (start_page mod 2 ^ 24 * W25Q128FV_PAGE_SIZE_IN_BYTES
          + page_bytes_offset)
  = uint32 (start_page * W25Q128FV_PAGE_SIZE_IN_BYTES + page_bytes_offset).
Proof.
  unfold uint32, W25Q128FV_PAGE_SIZE_IN_BYTES.
  change (2 ^ 32) with 4294967296. change (2 ^ 24) with 16777216.
  Z.div_mod_to_equations. lia.
Qed.

Lemma write_run_outside start_page page_bytes_offset size src s :
  typed_request start_page page_bytes_offset size src ->
  let addr_start := uint32 (start_page * 256 + page_bytes_offset) in
  addr_start + size > W25Q128FV_FLASH_MEMORY_TOTAL_SIZE_IN_BYTES ->
  w25q128fv_write_flash_memory start_page page_bytes_offset size src s
  = Run (Done (if uint32 (addr_start + size)
                    >? W25Q128FV_FLASH_MEMORY_TOTAL_SIZE_IN_BYTES
               then W25Q128FV_EC_ERR else W25Q128FV_EC_OK)) [] s.
Proof.
  intros Ht addr_start Hgt.
  unfold w25q128fv_write_flash_memory.
  unfold W25Q128FV_PAGE_SIZE_IN_BYTES. fold addr_start.
  destruct (Z.gtb_spec (uint32 (addr_start + size))
              W25Q128FV_FLASH_MEMORY_TOTAL_SIZE_IN_BYTES) as [Hrej|Hacc];
    [reflexivity|].
  assert (Hback : uint32 (addr_start + size) <= addr_start).
  { destruct Ht as (_ & _ & Hs & _).
    assert (Ha : 0 <= addr_start < 2 ^ 32)
      by (apply Z.mod_pos_bound; lia).
    unfold W25Q128FV_FLASH_MEMORY_TOTAL_SIZE_IN_BYTES in *.
    unfold uint32 in Hacc |- *.
    change (2 ^ 32) with 4294967296 in *.
    Z.div_mod_to_equations. lia. }
  destruct (Z.to_nat size); cbn [write_loop]; wstate_simpl;
    replace (addr_start <? uint32 (addr_start + size)) with false
      by (symmetry; apply Z.ltb_ge; exact Hback);
    reflexivity.
Qed.

(** X11. The three range-checked operations see the page number modulo
    2^24 only: a call with page [p] behaves in every respect (result, data,
    events, replies consumed) as the call with page [p mod 2^24], because
    the start address is computed in 32 bits. *)
Theorem page_number_is_taken_modulo
    start_page page_bytes_offset size buf s :
  typed_request start_page page_bytes_offset size buf ->
  w25q128fv_read_flash_memory start_page page_bytes_offset size buf s
  = w25q128fv_read_flash_memory (start_page mod 2 ^ 24)
      page_bytes_offset size buf s
  /\ w25q128fv_fast_read_flash_memory start_page page_bytes_offset size buf s
     = w25q128fv_fast_read_flash_memory (start_page mod 2 ^ 24)
         page_bytes_offset size buf s
  /\ w25q128fv_write_flash_memory start_page page_bytes_offset size buf s
     = w25q128fv_write_flash_memory (start_page mod 2 ^ 24)
         page_bytes_offset size buf s.
Proof.
  intros Ht.
  pose proof (page_number_wraps start_page page_bytes_offset) as Hw.
  split; [|split].
  - rewrite !read_flash_memory_run. cbv zeta. rewrite Hw. reflexivity.
  - rewrite !fast_read_flash_memory_run. cbv zeta. rewrite Hw. reflexivity.
  - assert (Ht' : typed_request (start_page mod 2 ^ 24)
                    page_bytes_offset size buf).
    { destruct Ht as (Hp & Ho & Hs & Hb). repeat split; try lia.
      - apply Z.mod_pos_bound. lia.
      - pose proof (Z.mod_pos_bound start_page (2 ^ 24) ltac:(lia)). lia. }
    unfold W25Q128FV_PAGE_SIZE_IN_BYTES in Hw.
    set (addr_start := uint32 (start_page * 256 + page_bytes_offset)) in *.
    destruct (Z_le_gt_dec (addr_start + size)
                W25Q128FV_FLASH_MEMORY_TOTAL_SIZE_IN_BYTES) as [Hle|Hgt].
    + rewrite (write_refines start_page) by assumption.
      rewrite (write_refines (start_page mod 2 ^ 24));
        [|exact Ht'|rewrite Hw; exact Hle].
      rewrite Hw. reflexivity.
    + rewrite (write_run_outside start_page) by assumption.
      rewrite (write_run_outside (start_page mod 2 ^ 24));
        [|exact Ht'|rewrite Hw; exact Hgt].
      rewrite Hw. reflexivity.
Qed.

Lemma page_number_is_taken_modulo_witness :
  w25q128fv_write_flash_memory 16777219 10 2 [5; 6] []
  = w25q128fv_write_flash_memory (16777219 mod 2 ^ 24) 10 2 [5; 6] [].
Proof.
  assert (Ht : typed_request 16777219 10 2 [5; 6])
    by (unfold typed_request; vm_compute; repeat split; discriminate).
  exact (proj2 (proj2 (page_number_is_taken_modulo 16777219 10 2 [5; 6] [] Ht))).
Defined.





Lemma program_chunks_abort_programs chunks : forall oks bad tl,
  Forall (fun p => 0 <= fst p < 2 ^ 24) chunks ->
  all_ok oks -> status bad <> HAL_OK ->
  (length oks < 3 * length chunks)%nat ->
  page_programs (trace (program_chunks chunks (oks ++ bad :: tl)))
  = take ((length oks + 2) / 3) chunks.
Proof.
  induction chunks as [|[a payload] chunks IH];
    intros oks bad tl Hall Hoks Hbad Hlen; [cbn in Hlen; lia|].
  inversion Hall as [|? ? Ha Hall']; subst. cbn [fst] in Ha.
  rewrite program_chunks_step. cbv zeta.
  destruct (reply_code_failed bad tl Hbad) as (Fc & Fb & Fr).
  destruct oks as [|o1 oks].
  { cbn [app]. rewrite Fb. reflexivity. }
  inversion Hoks as [|? ? Ho1 Hoks1]; subst.
  assert (E1 : reply_code ((o1 :: oks) ++ bad :: tl) = W25Q128FV_EC_OK)
    by (unfold reply_code; cbn; rewrite Ho1; reflexivity).
  assert (A1 : after_reply ((o1 :: oks) ++ bad :: tl) = oks ++ bad :: tl)
    by reflexivity.
  rewrite E1, A1. cbn [Z_neqb Z.eqb W25Q128FV_EC_OK negb].
  destruct oks as [|o2 oks].
  { cbn [app]. rewrite Fb. cbn [trace]. unfold page_programs. cbn.
    rewrite address_bytes_decode by exact Ha. reflexivity. }
  inversion Hoks1 as [|? ? Ho2 Hoks2]; subst.
  assert (E2 : reply_code ((o2 :: oks) ++ bad :: tl) = W25Q128FV_EC_OK)
    by (unfold reply_code; cbn; rewrite Ho2; reflexivity).
  assert (A2 : after_reply ((o2 :: oks) ++ bad :: tl) = oks ++ bad :: tl)
    by reflexivity.
  rewrite E2, A2. cbn [Z_neqb Z.eqb W25Q128FV_EC_OK negb].
  destruct oks as [|o3 oks].
  { cbn [app]. rewrite Fb. cbn [trace].
    rewrite <- (app_nil_r (chunk_events _)).
    rewrite page_programs_chunk_events by exact Ha. reflexivity. }
  inversion Hoks2 as [|? ? Ho3 Hoks3]; subst.
  assert (E3 : reply_code ((o3 :: oks) ++ bad :: tl) = W25Q128FV_EC_OK)
    by (unfold reply_code; cbn; rewrite Ho3; reflexivity).
  assert (A3 : after_reply ((o3 :: oks) ++ bad :: tl) = oks ++ bad :: tl)
    by reflexivity.
  rewrite E3, A3. cbn [Z_neqb Z.eqb W25Q128FV_EC_OK negb trace].
  rewrite page_programs_chunk_events by exact Ha.
  rewrite (IH oks bad tl Hall' Hoks3 Hbad ltac:(cbn [length] in Hlen; lia)).
  cbn [length].
  replace (S (S (S (length oks))) + 2)%nat
    with (length oks + 2 + 1 * 3)%nat by lia.
  rewrite Nat.div_add by lia.
  replace ((length oks + 2) / 3 + 1)%nat with (S ((length oks + 2) / 3)) by lia.
  reflexivity.
Qed.

(** X13. When a validated write is cut short by the first transport call
    that does not succeed, the page programs it has sent are exactly the
    first ones of the run without failure: all those of the chunks before
    the failing step, and the one of the current chunk unless the failing
    step is its write-enable. *)
Theorem aborted_write_has_sent_the_first_programs
    start_page page_bytes_offset size src oks bad tl :
  valid_request start_page page_bytes_offset size src ->
  all_ok oks -> status bad <> HAL_OK ->
  (length oks
   < spi_calls
       (trace (w25q128fv_write_flash_memory start_page page_bytes_offset size src [])))%nat ->
  page_programs
    (trace (w25q128fv_write_flash_memory start_page page_bytes_offset size src
              (oks ++ bad :: tl)))
  = take ((length oks + 2) / 3)
      (page_programs
         (trace (w25q128fv_write_flash_memory
                   start_page page_bytes_offset size src []))).
Proof.
  intros Hv Hoks Hbad Hlen.
  pose proof (chunks_of_spec _ _ _ _ Hv) as Hspec. cbv zeta in Hspec.
  destruct Hspec as (_ & _ & _ & B).
  rewrite !valid_write_run in * by exact Hv.
  unfold finished in *. cbn [trace] in *.
  rewrite program_chunks_calls in Hlen by constructor.
  rewrite (proj2 (program_chunks_all_ok
                    (chunks_of start_page page_bytes_offset size src) []
                    ltac:(constructor) B)).
  apply program_chunks_abort_programs; assumption.
Qed.

Lemma aborted_write_has_sent_the_first_programs_witness :
  page_programs
    (trace (w25q128fv_write_flash_memory 0 250 300 (replicate 300 0)
              ([Reply HAL_OK []; Reply HAL_OK []; Reply HAL_OK [];
                Reply HAL_OK []] ++ Reply HAL_BUSY [] :: [])))
  = take ((length [Reply HAL_OK []; Reply HAL_OK []; Reply HAL_OK [];
                   Reply HAL_OK []] + 2) / 3)
      (page_programs
         (trace (w25q128fv_write_flash_memory 0 250 300 (replicate 300 0) []))).
Proof.
  assert (Hv : valid_request 0 250 300 (replicate 300 0))
    by (unfold valid_request; vm_compute; repeat split; discriminate).
  assert (Hoks : all_ok [Reply HAL_OK []; Reply HAL_OK []; Reply HAL_OK [];
                         Reply HAL_OK []])
    by (repeat constructor).
  assert (Hbad : status (Reply HAL_BUSY []) <> HAL_OK) by discriminate.
  assert (Hlen : (length [Reply HAL_OK []; Reply HAL_OK []; Reply HAL_OK [];
                          Reply HAL_OK []]
                  < spi_calls
                      (trace (w25q128fv_write_flash_memory 0 250 300
                                (replicate 300 0%Z) [])))%nat)
    by (vm_compute; lia).
  exact (aborted_write_has_sent_the_first_programs 0 250 300 _ _ _ []
           Hv Hoks Hbad Hlen).
Defined.
